(** * Verification of the dispatch core of agentesai

    Shallow embedding of the classes of [src/agentesai/agent]:
    - [AgenteCoordinador] (coordinador.py): request classification;
    - [AgenteEjecutor] (ejecutor.py): the live name -> callable mapping;
    - [AgenteGenerador] (generador.py): tool synthesis with its fallback;
    - [RegistryTools] (registry.py): the persisted catalog;
    - [AgenteOfensivo] (ofensivo.py): the offensive tools and their history;
    - [SistemaAgentes] (sistema.py): [procesar_consulta] and
      [reset_sistema] over all of the above.

    Strings are Stdlib strings holding the UTF-8 bytes of the Python text.
    Library string operations whose exact definition the claims do not
    depend on ([str.lower], [str.split], [hashlib.md5(...).hexdigest()])
    are taken as parameters of the Sections below, so every result holds
    for any implementation of them. *)

From Stdlib Require Import String Ascii ZArith.
From stdpp Require Import base gmap strings list fin_maps.

Open Scope string_scope.

(* ================================================================= *)
(** ** Python string helpers *)

Module Py.

(** [pat in s] for Python strings: [pat] occurs somewhere in [s]. *)
Fixpoint contiene (pat s : string) : bool :=
  String.prefix pat s ||
  match s with
  | EmptyString => false
  | String _ s' => contiene pat s'
  end.

(** [any(p in s for p in pats)] *)
Definition alguno (pats : list string) (s : string) : bool :=
  existsb (fun p => contiene p s) pats.

(** The truth value of a Python string: [if s:]. *)
Definition verdadera (s : string) : bool :=
  match s with EmptyString => false | _ => true end.

(** ASCII-only [str.lower], used to instantiate the Sections in examples. *)
Definition ascii_lower_char (c : ascii) : ascii :=
  let n := nat_of_ascii c in
  if (65 <=? n)%nat && (n <=? 90)%nat then ascii_of_nat (n + 32) else c.

Fixpoint ascii_lower (s : string) : string :=
  match s with
  | EmptyString => EmptyString
  | String c s' => String (ascii_lower_char c) (ascii_lower s')
  end.

(** ASCII-only [str.split()]: splits at runs of whitespace and drops
    empty pieces, used to instantiate the Sections in examples. *)
Definition es_espacio (c : ascii) : bool :=
  let n := nat_of_ascii c in
  (n =? 32)%nat || ((9 <=? n)%nat && (n <=? 13)%nat).

Fixpoint split_desde (s acc : string) : list string :=
  match s with
  | EmptyString => if verdadera acc then [acc] else []
  | String c s' =>
      if es_espacio c
      then (if verdadera acc then acc :: split_desde s' EmptyString else split_desde s' EmptyString)
      else split_desde s' (acc ++ String c EmptyString)
  end.

Definition ascii_split (s : string) : list string := split_desde s EmptyString.

(** The Python slice [l[a:]]: a negative start counts from the end and is
    clipped at 0, a start past the end gives []. *)
Definition rebanada_desde {A : Type} (a : Z) (l : list A) : list A :=
  let n := Z.of_nat (length l) in
  let inicio := if (a <? 0)%Z then Z.max 0 (n + a) else Z.min a n in
  drop (Z.to_nat inicio) l.

End Py.

(* ================================================================= *)
(** ** rich's markup, as far as [console.print(Panel(texto))] needs it *)

Module Rich.

(** Every module of the agent prints through a rich [Console()], which
    reads the text of a [Panel] as markup: [rich.markup.render] raises
    [MarkupError] on a closing tag ("[/]" or "[/name]") that finds no open
    style. Its scanner [_parse] reads tags with the regular expression
    [RE_TAGS]: a run of backslashes, "[", a first
    character among a-z, #, / and @, then characters other than "[" up to
    the first "]". A run of odd length escapes the tag (plain text);
    otherwise the tag is read, and it closes a style when its first
    character is "/". When the first tag read closes, the stack of open
    styles is empty and [render] raises.

    The states of the scan: [Texto impar] in plain text, after a run of
    backslashes of odd length when [impar]; [Abierta esc] right after a
    "[" that a run of parity [esc] precedes; [Etiqueta esc cierra impar]
    inside a tag. A failed match restarts at the next position: after a
    "[" not followed by a tag character, at that character; inside a tag,
    at the "[" that stops it, escaped by the run of backslashes right
    before it. Strings are UTF-8 bytes: the characters the pattern tests
    are ASCII, and no byte of a multi-byte sequence is ASCII. *)
Inductive estado :=
| Texto (impar : bool)
| Abierta (escapada : bool)
| Etiqueta (escapada cierra impar : bool).

(** [[a-z#/@]] *)
Definition inicio_etiqueta (a : ascii) : bool :=
  (Nat.leb (nat_of_ascii "a"%char) (nat_of_ascii a) &&
   Nat.leb (nat_of_ascii a) (nat_of_ascii "z"%char)) ||
  Ascii.eqb a "#"%char || Ascii.eqb a "/"%char || Ascii.eqb a "@"%char.

Fixpoint primera_desde (e : estado) (s : string) : bool :=
  match s with
  | EmptyString => false
  | String a r =>
      match e with
      | Texto impar =>
          if Ascii.eqb a "\"%char then primera_desde (Texto (negb impar)) r
          else if Ascii.eqb a "["%char then primera_desde (Abierta impar) r
          else primera_desde (Texto false) r
      | Abierta esc =>
          if inicio_etiqueta a then primera_desde (Etiqueta esc (Ascii.eqb a "/"%char) false) r
          else if Ascii.eqb a "\"%char then primera_desde (Texto true) r
          else if Ascii.eqb a "["%char then primera_desde (Abierta false) r
          else primera_desde (Texto false) r
      | Etiqueta esc cierra impar =>
          if Ascii.eqb a "]"%char then (if esc then primera_desde (Texto false) r else cierra)
          else if Ascii.eqb a "["%char then primera_desde (Abierta impar) r
          else if Ascii.eqb a "\"%char then primera_desde (Etiqueta esc cierra (negb impar)) r
          else primera_desde (Etiqueta esc cierra false) r
      end
  end.

(** The first tag rich reads in [texto] closes a style: printing a
    [Panel] of [texto] raises [MarkupError]. *)
Definition primera_etiqueta_cierra (texto : string) : bool := primera_desde (Texto false) texto.

End Rich.

(* ================================================================= *)
(** ** AgenteCoordinador (coordinador.py) *)

Module Coordinador.

(** The decision dictionary returned by [analizar_consulta]. *)
Inductive decision :=
| Ejecutar (herramienta : option string) (consulta : string)
    (* {"accion": "ejecutar", "agente": "ejecutor", "herramienta": ..., "consulta": ...} *)
| Generar (consulta : string) (tipo_herramienta : string)
    (* {"accion": "generar", "agente": "generador", "consulta": ..., "tipo_herramienta": ...} *).

Definition accion (d : decision) : string :=
  match d with Ejecutar _ _ => "ejecutar" | Generar _ _ => "generar" end.

Definition patrones_conocidos : list string := [
  "quién soy"; "quien soy"; "who am i";
  "qué grupos tengo"; "que grupos tengo"; "what groups";
  "reset"; "reseteo"; "reiniciar";
  "listar usuarios"; "lista usuarios"; "todos los usuarios"; "list users"; "all users";
  "buscar usuarios"; "usuarios por departamento"; "search users"; "users by department";
  "estructura ldap"; "estructura del directorio"; "ldap structure"; "directory structure";
  "rootdse"; "root dse"; "rootdse info"; "root dse info";
  "análisis rootdse"; "analisis rootdse"; "rootdse analysis";
  "información servidor"; "server info"; "ldap info"; "ldap server info";
  "enumeración anónima"; "enumeracion anonima"; "anonymous enum";
  "bind anónimo"; "bind anonimo"; "anonymous bind";
  "usuarios anónimos"; "usuarios anonimos"; "anonymous users";
  "enumerar usuarios"; "enumerar grupos"; "list users groups";
  "starttls"; "start tls"; "tls test"; "test tls";
  "test seguridad"; "seguridad tls"; "tls security";
  "downgrade tls"; "tls downgrade"; "handshake tls"].

(** The trigger rows of [_identificar_herramienta], in source order. *)
Definition fila_usuario := ["quién soy"; "quien soy"; "who am i"].
Definition fila_grupos := ["qué grupos"; "que grupos"; "what groups"].
Definition fila_reset := ["reset"; "reseteo"; "reiniciar"].
Definition fila_listar :=
  ["listar usuarios"; "lista usuarios"; "todos los usuarios"; "list users"; "all users"].
Definition fila_buscar :=
  ["buscar usuarios"; "usuarios por departamento"; "search users"; "users by department"].
Definition fila_estructura :=
  ["estructura ldap"; "estructura del directorio"; "ldap structure"; "directory structure"].
Definition fila_rootdse :=
  ["rootdse"; "root dse"; "rootdse info"; "root dse info"; "análisis rootdse";
   "analisis rootdse"; "rootdse analysis"; "información servidor"; "server info";
   "ldap info"; "ldap server info"].
Definition fila_anonimo :=
  ["enumeración anónima"; "enumeracion anonima"; "anonymous enum"; "bind anónimo";
   "bind anonimo"; "anonymous bind"; "usuarios anónimos"; "usuarios anonimos";
   "anonymous users"; "enumerar usuarios"; "enumerar grupos"; "list users groups"].
Definition fila_starttls :=
  ["starttls"; "start tls"; "tls test"; "test tls"; "test seguridad"; "seguridad tls";
   "tls security"; "downgrade tls"; "tls downgrade"; "handshake tls"].

(** All the triggers of [_identificar_herramienta], row after row. *)
Definition filas_identificar : list string :=
  fila_usuario ++ fila_grupos ++ fila_reset ++ fila_listar ++ fila_buscar ++
  fila_estructura ++ fila_rootdse ++ fila_anonimo ++ fila_starttls.

(** Every pattern of [_puede_responder_directamente] contains a trigger
    of [_identificar_herramienta]. *)
Definition cobertura : bool :=
  forallb (fun p => Py.alguno filas_identificar p) patrones_conocidos.

(** The keywords of [_determinar_tipo_herramienta]. *)
Definition palabras_tipo : list string :=
  ["grupos"; "groups"; "usuarios"; "users"; "departamento"; "department"].

Section Clasificador.

(** Python's [str.lower]. *)
Variable lower : string -> string.

Definition puede_responder_directamente (consulta : string) : bool :=
  let consulta_lower := lower consulta in
  Py.alguno patrones_conocidos consulta_lower.

Definition identificar_herramienta (consulta : string) : option string :=
  let consulta_lower := lower consulta in
  if Py.alguno fila_usuario consulta_lower then Some "get_current_user_info"
  else if Py.alguno fila_grupos consulta_lower then Some "get_user_groups"
  else if Py.alguno fila_reset consulta_lower then Some "reset_system"
  else if Py.alguno fila_listar consulta_lower then Some "list_all_users"
  else if Py.alguno fila_buscar consulta_lower then Some "search_users_by_department"
  else if Py.alguno fila_estructura consulta_lower then Some "analyze_ldap_structure"
  else if Py.alguno fila_rootdse consulta_lower then Some "tool_rootdse_info"
  else if Py.alguno fila_anonimo consulta_lower then Some "tool_anonymous_enum"
  else if Py.alguno fila_starttls consulta_lower then Some "tool_starttls_test"
  else None.

Definition determinar_tipo_herramienta (consulta : string) : string :=
  let consulta_lower := lower consulta in
  if Py.alguno ["grupos"; "groups"] consulta_lower then "ldap_query"
  else if Py.alguno ["usuarios"; "users"] consulta_lower then "ldap_query"
  else if Py.alguno ["departamento"; "department"] consulta_lower then "ldap_query"
  else "generic_query".

(** The decision [analizar_consulta] returns once its first statement,
    the print of the request, has returned. *)
Definition analizar_consulta (consulta : string) : decision :=
  if puede_responder_directamente consulta then
    Ejecutar (identificar_herramienta consulta) consulta
  else
    Generar consulta (determinar_tipo_herramienta consulta).

(** The text of [console.print(Panel(f"🧠 Analizando consulta: {consulta}", ...))]. *)
Definition panel_analizando (consulta : string) : string :=
  "🧠 Analizando consulta: " ++ consulta.

(** [analizar_consulta(consulta)] with its print, which no [try] guards:
    [fallo_panel texto] is [Some msg] when printing a [Panel] of [texto]
    raises an exception whose [str] is [msg], and then the call raises
    ([inl msg]). *)
Definition analizar_consulta_py (fallo_panel : string -> option string) (consulta : string)
    : string + decision :=
  match fallo_panel (panel_analizando consulta) with
  | Some e => inl e
  | None => inr (analizar_consulta consulta)
  end.

End Clasificador.

End Coordinador.

(* ================================================================= *)
(** ** AgenteEjecutor (ejecutor.py) *)

Module Ejecutor.

Section Ejecutor.

(** [F]: the Python callables held by the mappings; [Args]: the keyword
    arguments of a call; [V]: the values a callable returns. *)
Variables F Args V : Type.

(** Calling a tool: [inl msg] when it raises an exception whose [str] is
    [msg], [inr v] when it returns [v]. *)
Variable invocar : F -> Args -> string + V.

(** The three dictionaries of an [AgenteEjecutor] instance. Python dicts
    are modelled by [gmap]: the claims only depend on their lookups, not on
    the insertion order of their keys. *)
Record ejecutor := mkEjecutor {
  herramientas : gmap string F;
  herramientas_base : gmap string F;
  herramientas_generadas : gmap string F
}.

(** The names imported in [_inicializar_herramientas_base]. *)
Definition nombres_base : list string :=
  ["get_current_user_info"; "get_user_groups"; "reset_system";
   "list_all_users"; "search_users_by_department"; "analyze_ldap_structure"].

(** [__init__] followed by [_inicializar_herramientas_base]; [importar n]
    is the function object imported from [tools_base] under the name [n]. *)
Definition inicializar (importar : string -> F) : ejecutor :=
  let base : gmap string F := list_to_map (map (fun n => (n, importar n)) nombres_base) in
  (* self.herramientas = {}; ...; self.herramientas.update(self.herramientas_base) *)
  {| herramientas := base ∪ ∅;
     herramientas_base := base;
     herramientas_generadas := ∅ |}.

(** The dictionary returned by [ejecutar_herramienta]. *)
Inductive resultado :=
| NoEncontrada (mensaje : string) (herramientas_disponibles : list string)
    (* {"error": True, "mensaje": ..., "herramientas_disponibles": ...} *)
| Exitosa (herramienta : string) (valor : V) (tipo : string)
    (* {"error": False, "herramienta": ..., "resultado": ..., "tipo": ...} *)
| Fallida (mensaje : string) (herramienta : string)
    (* {"error": True, "mensaje": ..., "herramienta": ...} *).

(** The ["error"] field of a [resultado]. *)
Definition error (r : resultado) : bool :=
  match r with NoEncontrada _ _ => true | Exitosa _ _ _ => false | Fallida _ _ => true end.

(** [list(self.herramientas.keys())] *)
Definition claves (m : gmap string F) : list string := map fst (map_to_list m).

Definition ejecutar_herramienta (s : ejecutor) (nombre : string) (kwargs : Args) : resultado :=
  match herramientas s !! nombre with
  | None =>
      NoEncontrada ("Herramienta '" ++ nombre ++ "' no encontrada") (claves (herramientas s))
  | Some f =>
      match invocar f kwargs with
      | inl e => Fallida ("Error ejecutando " ++ nombre ++ ": " ++ e) nombre
      | inr v =>
          let tipo_herramienta :=
            if decide (is_Some (herramientas_base s !! nombre)) then "base" else "generada" in
          Exitosa nombre v tipo_herramienta
      end
  end.

Definition agregar_herramienta_generada (nombre : string) (funcion : F) (s : ejecutor)
    : bool * ejecutor :=
  (true, {| herramientas := <[nombre := funcion]> (herramientas s);
            herramientas_base := herramientas_base s;
            herramientas_generadas := <[nombre := funcion]> (herramientas_generadas s) |}).

(** [del self.herramientas[nombre]] is modelled by [delete]: every name of
    [herramientas_generadas] is a key of [herramientas] in every reachable
    state ([generadas_en_herramientas] below), so the [KeyError] of [del]
    cannot occur. *)
Definition remover_herramienta_generada (nombre : string) (s : ejecutor) : bool * ejecutor :=
  match herramientas_generadas s !! nombre with
  | Some _ =>
      (true, {| herramientas := delete nombre (herramientas s);
                herramientas_base := herramientas_base s;
                herramientas_generadas := delete nombre (herramientas_generadas s) |})
  | None => (false, s)
  end.

(** The [for] loop of [reset_herramientas_generadas]. *)
Definition remover_todas (nombres : list string) (s : ejecutor) : ejecutor :=
  foldl (fun s nombre => snd (remover_herramienta_generada nombre s)) s nombres.

Definition reset_herramientas_generadas (s : ejecutor) : nat * ejecutor :=
  let herramientas_removidas := claves (herramientas_generadas s) in
  (length herramientas_removidas, remover_todas herramientas_removidas s).

(** The operations a client performs on an [AgenteEjecutor]. *)
Inductive operacion :=
| OpAgregar (nombre : string) (funcion : F)
| OpRemover (nombre : string)
| OpReset.

Definition paso (o : operacion) (s : ejecutor) : ejecutor :=
  match o with
  | OpAgregar n f => snd (agregar_herramienta_generada n f s)
  | OpRemover n => snd (remover_herramienta_generada n s)
  | OpReset => snd (reset_herramientas_generadas s)
  end.

Definition ejecutar_ops (ops : list operacion) (s : ejecutor) : ejecutor :=
  foldl (fun s o => paso o s) s ops.

(** The invariant of the specification: the live mapping is the union
    of the synthesized and builtin mappings, whose names are disjoint. *)
Definition invariante (s : ejecutor) : Prop :=
  herramientas s = herramientas_generadas s ∪ herramientas_base s /\
  herramientas_generadas s ##ₘ herramientas_base s.

(** Every synthesized name is a key of the live mapping. *)
Definition generadas_incluidas (s : ejecutor) : Prop :=
  forall k, is_Some (herramientas_generadas s !! k) -> is_Some (herramientas s !! k).

(** An operation that does not register a tool under a builtin name. *)
Definition agregar_no_base (o : operacion) : Prop :=
  match o with OpAgregar n _ => n ∉ nombres_base | _ => True end.

End Ejecutor.

Arguments mkEjecutor {F}.
Arguments herramientas {F}.
Arguments herramientas_base {F}.
Arguments herramientas_generadas {F}.
Arguments inicializar {F}.
Arguments NoEncontrada {V}.
Arguments Exitosa {V}.
Arguments Fallida {V}.
Arguments error {V}.
Arguments claves {F}.
Arguments ejecutar_herramienta {F Args V}.
Arguments agregar_herramienta_generada {F}.
Arguments remover_herramienta_generada {F}.
Arguments remover_todas {F}.
Arguments reset_herramientas_generadas {F}.
Arguments OpAgregar {F}.
Arguments OpRemover {F}.
Arguments OpReset {F}.
Arguments paso {F}.
Arguments ejecutar_ops {F}.
Arguments invariante {F}.
Arguments generadas_incluidas {F}.
Arguments agregar_no_base {F}.

(** The dictionary returned by [listar_herramientas]. *)
Record listado := mkListado {
  base : list string;         (* list(self.herramientas_base.keys()) *)
  generadas : list string;    (* list(self.herramientas_generadas.keys()) *)
  total : nat;                (* len(self.herramientas) *)
  base_count : nat;           (* len(self.herramientas_base) *)
  generadas_count : nat       (* len(self.herramientas_generadas) *)
}.

Definition listar_herramientas {F : Type} (s : ejecutor F) : listado :=
  {| base := claves (herramientas_base s);
     generadas := claves (herramientas_generadas s);
     total := size (herramientas s);
     base_count := size (herramientas_base s);
     generadas_count := size (herramientas_generadas s) |}.

End Ejecutor.

(* ================================================================= *)
(** ** RegistryTools (registry.py) *)

Module Registry.

(** The JSON values stored in a tool's metadata. *)
Inductive valor :=
| VStr (s : string)
| VInt (z : Z).

Global Instance valor_eq_dec : EqDecision valor.
Proof. solve_decision. Defined.

Abbreviation metadatos := (gmap string valor).

(** An entry of [historial_herramientas]. *)
Record evento := mkEvento {
  accion : string;
  herramienta : string;
  timestamp : string;
  metadata_evento : option metadatos
}.

(** The JSON document written by [guardar_registro]. *)
Record documento := mkDocumento {
  doc_herramientas : gmap string metadatos;
  doc_historial : list evento;
  doc_ultima_actualizacion : string
}.

(** A [RegistryTools] instance together with the content of its file
    [archivo_registro] ([None]: the file does not exist). *)
Record registro := mkRegistro {
  herramientas_registradas : gmap string metadatos;
  historial_herramientas : list evento;
  disco : option documento
}.

(** [RegistryTools()] when [tools_registry.json] does not exist. *)
Definition registro_vacio : registro :=
  {| herramientas_registradas := ∅; historial_herramientas := []; disco := None |}.

(** The outcome of a write to [archivo_registro]. *)
Inductive io := IoOk | IoFallo (error : string).

(** [guardar_registro]: the exception of a failed [open]/[json.dump] is
    caught, logged and not re-raised; the file keeps its previous content.
    [ahora] is [datetime.now().isoformat()]. *)
Definition guardar_registro (w : io) (ahora : string) (r : registro) : registro :=
  match w with
  | IoOk =>
      {| herramientas_registradas := herramientas_registradas r;
         historial_herramientas := historial_herramientas r;
         disco := Some {| doc_herramientas := herramientas_registradas r;
                          doc_historial := historial_herramientas r;
                          doc_ultima_actualizacion := ahora |} |}
  | IoFallo _ => r
  end.

(** [{**metadata, 'fecha_registro': ..., 'estado': 'activa', 'uso_count': 0}] *)
Definition metadata_completa (ahora : string) (metadata : metadatos) : metadatos :=
  <["uso_count" := VInt 0]> (<["estado" := VStr "activa"]>
    (<["fecha_registro" := VStr ahora]> metadata)).

Definition registrar_herramienta (w : io) (ahora : string) (nombre : string)
    (metadata : metadatos) (r : registro) : bool * registro :=
  let r1 :=
    {| herramientas_registradas :=
         <[nombre := metadata_completa ahora metadata]> (herramientas_registradas r);
       historial_herramientas :=
         historial_herramientas r ++
           [{| accion := "registro"; herramienta := nombre; timestamp := ahora;
               metadata_evento := Some metadata |}];
       disco := disco r |} in
  let r2 := guardar_registro w ahora r1 in
  (true, r2).

Definition desregistrar_herramienta (w : io) (ahora : string) (nombre : string)
    (r : registro) : bool * registro :=
  match herramientas_registradas r !! nombre with
  | Some datos =>
      let datos' := <["fecha_desregistro" := VStr ahora]> (<["estado" := VStr "inactiva"]> datos) in
      let r1 :=
        {| herramientas_registradas := <[nombre := datos']> (herramientas_registradas r);
           historial_herramientas :=
             historial_herramientas r ++
               [{| accion := "desregistro"; herramienta := nombre; timestamp := ahora;
                   metadata_evento := None |}];
           disco := disco r |} in
      (true, guardar_registro w ahora r1)
  | None => (false, r)
  end.

(** [incrementar_uso]: [None] when [+= 1] raises (missing ['uso_count']
    key, or a non-integer count). *)
Definition incrementar_uso (ahora : string) (nombre : string) (r : registro)
    : option registro :=
  match herramientas_registradas r !! nombre with
  | Some datos =>
      match datos !! "uso_count" with
      | Some (VInt n) =>
          let datos' := <["ultimo_uso" := VStr ahora]> (<["uso_count" := VInt (n + 1)]> datos) in
          Some {| herramientas_registradas := <[nombre := datos']> (herramientas_registradas r);
                  historial_herramientas := historial_herramientas r;
                  disco := disco r |}
      | _ => None
      end
  | None => Some r
  end.

(** [listar_herramientas(filtro_estado)]: the fields ['total'] and
    ['herramientas'] of the returned dictionary. *)
Definition listar_herramientas (filtro_estado : option string) (r : registro)
    : nat * gmap string metadatos :=
  let herramientas_filtradas :=
    match filtro_estado with
    | Some f =>
        if Py.verdadera f then
          filter (fun kv : string * metadatos => kv.2 !! "estado" = Some (VStr f))
                 (herramientas_registradas r)
        else herramientas_registradas r
    | None => herramientas_registradas r
    end in
  (size herramientas_filtradas, herramientas_filtradas).

(** [reset_completo]: the in-memory state is cleared first, then
    [os.remove] deletes the file when it exists. When [os.remove] raises
    ([borrado = IoFallo msg]) the exception propagates (second component
    [Some msg]) after the in-memory state was cleared. *)
Definition reset_completo (borrado : io) (r : registro) : registro * option string :=
  match disco r, borrado with
  | None, _ => ({| herramientas_registradas := ∅; historial_herramientas := []; disco := None |}, None)
  | Some _, IoOk => ({| herramientas_registradas := ∅; historial_herramientas := []; disco := None |}, None)
  | Some d, IoFallo e =>
      ({| herramientas_registradas := ∅; historial_herramientas := []; disco := Some d |}, Some e)
  end.

(** [RegistryTools()], i.e. [__init__] followed by [cargar_registro], on
    a file [archivo] ([None]: it does not exist). A file holds the document
    written by [guardar_registro], whose JSON encoding of strings and
    integers is read back unchanged by [json.load]; [lectura = IoFallo msg]
    is a failed [open]/[json.load], whose exception is caught and logged,
    leaving the fields as [__init__] set them. *)
Definition cargar_registro (lectura : io) (archivo : option documento) : registro :=
  match archivo, lectura with
  | None, _ =>
      {| herramientas_registradas := ∅; historial_herramientas := []; disco := None |}
  | Some d, IoOk =>
      {| herramientas_registradas := doc_herramientas d;
         historial_herramientas := doc_historial d;
         disco := Some d |}
  | Some d, IoFallo _ =>
      {| herramientas_registradas := ∅; historial_herramientas := []; disco := Some d |}
  end.

(** [h.get('estado') == e] *)
Definition estado_es (e : string) (h : metadatos) : bool :=
  bool_decide (h !! "estado" = Some (VStr e)).

(** [sum(1 for h in valores if h.get('estado') == e)] *)
Definition contar_estado (e : string) (valores : list metadatos) : nat :=
  length (List.filter (estado_es e) valores).

(** [h.get('uso_count', 0)] as an integer operand of [sum]; [None] when it
    is a string, for which [+] raises [TypeError]. *)
Definition uso_de (h : metadatos) : option Z :=
  match h !! "uso_count" with
  | None => Some 0%Z
  | Some (VInt n) => Some n
  | Some (VStr _) => None
  end.

(** [sum(h.get('uso_count', 0) for h in valores)], [None] when it raises. *)
Definition sumar_uso (valores : list metadatos) : option Z :=
  foldl (fun acc h => match acc, uso_de h with
                      | Some a, Some u => Some (a + u)%Z
                      | _, _ => None
                      end) (Some 0%Z) valores.

(** The integer fields of the dictionary returned by
    [obtener_estadisticas]; ['promedio_uso'] is the float
    [total_uso / total_herramientas] (or [0]) and is not modelled. *)
Record estadisticas := mkEstadisticas {
  total_herramientas : nat;
  activas : nat;
  inactivas : nat;
  total_uso : Z
}.

(** [obtener_estadisticas]: [None] when the [sum] of the use counts raises. *)
Definition obtener_estadisticas (r : registro) : option estadisticas :=
  let valores := map snd (map_to_list (herramientas_registradas r)) in
  match sumar_uso valores with
  | Some total =>
      Some {| total_herramientas := size (herramientas_registradas r);
              activas := contar_estado "activa" valores;
              inactivas := contar_estado "inactiva" valores;
              total_uso := total |}
  | None => None
  end.

(** The operations a client performs on a [RegistryTools], with the
    outcome of their file accesses; [OpRecargar] is a new [RegistryTools()]
    on the same file (a new process). [None]: [incrementar_uso] raised.
    An [os.remove] failure of [reset_completo] reaches the caller after
    the in-memory state was cleared; the instance stays usable with that
    state, which is the one the sequence continues from. *)
Inductive operacion :=
| OpRegistrar (w : io) (ahora nombre : string) (metadata : metadatos)
| OpDesregistrar (w : io) (ahora nombre : string)
| OpIncrementar (ahora nombre : string)
| OpReset (borrado : io)
| OpRecargar (lectura : io).

Definition paso (o : operacion) (r : registro) : option registro :=
  match o with
  | OpRegistrar w ahora nombre metadata => Some (snd (registrar_herramienta w ahora nombre metadata r))
  | OpDesregistrar w ahora nombre => Some (snd (desregistrar_herramienta w ahora nombre r))
  | OpIncrementar ahora nombre => incrementar_uso ahora nombre r
  | OpReset borrado => Some (fst (reset_completo borrado r))
  | OpRecargar lectura => Some (cargar_registro lectura (disco r))
  end.

Fixpoint ejecutar_ops (ops : list operacion) (r : registro) : option registro :=
  match ops with
  | [] => Some r
  | o :: ops' => match paso o r with Some r' => ejecutar_ops ops' r' | None => None end
  end.

(** An entry as [registrar_herramienta] builds it and the other
    operations keep it: a non-negative integer ['uso_count'] and an ['estado'] that is
    "activa" or "inactiva". *)
Definition entrada_valida (h : metadatos) : Prop :=
  (exists k, (0 <= k)%Z /\ h !! "uso_count" = Some (VInt k)) /\
  (h !! "estado" = Some (VStr "activa") \/ h !! "estado" = Some (VStr "inactiva")).

(** Every entry in memory and in the file is valid. *)
Definition bien_formado (r : registro) : Prop :=
  map_Forall (fun _ => entrada_valida) (herramientas_registradas r) /\
  match disco r with
  | Some d => map_Forall (fun _ => entrada_valida) (doc_herramientas d)
  | None => True
  end.

End Registry.

(* ================================================================= *)
(** ** AgenteGenerador (generador.py) *)

Module Generador.

(** Characters that a Rocq string literal cannot hold directly. *)
Definition nl : string := String (ascii_of_nat 10) EmptyString.
Definition dq : string := String (ascii_of_nat 34) EmptyString.
Definition tdq : string := dq ++ dq ++ dq.

(** What the call to the code-generation provider does in
    [_generar_codigo_con_ia]: it raises (import failure, unreachable
    service, timeout, unreadable [response.text]) or answers a text. *)
Inductive proveedor :=
| ProvExcepcion (mensaje : string)
| ProvRespuesta (texto : string).

Section Generador.

(** [Funcion]: the Python function objects built by [exec]. *)
Variable Funcion : Type.
(** [hashlib.md5(s.encode()).hexdigest()], [str.lower] and [str.split()]. *)
Variable md5_hexdigest : string -> string.
Variable lower : string -> string.
Variable split : string -> list string.
(** [_extraer_codigo_python] (the regular-expression search). *)
Variable extraer_codigo_python : string -> option string.
(** [_crear_funcion_dinamica codigo consulta]: [None] when [exec] of
    [codigo] raises, otherwise the [get_*] function found in the namespace
    or the wrapper closure. *)
Variable crear_funcion_dinamica : string -> string -> option Funcion.
(** [console.print(Panel(texto, ...))]: [Some msg] when it raises an
    exception whose [str] is [msg] (rich's [MarkupError] on a malformed
    markup tag of [texto]), [None] when it returns. *)
Variable fallo_panel : string -> option string.

(** The dictionary returned by [generar_herramienta]. *)
Inductive resultado_generacion :=
| GenError (mensaje : string)
    (* {"error": True, "mensaje": ...} *)
| GenOk (nombre : string) (funcion : Funcion) (codigo tipo consulta_original : string)
    (* {"error": False, "nombre": ..., "funcion": ..., "codigo": ..., "tipo": ...,
        "consulta_original": ...} *).

Definition error (r : resultado_generacion) : bool :=
  match r with GenError _ => true | GenOk _ _ _ _ _ => false end.

Definition generar_nombre_herramienta (consulta : string) : string :=
  let hash_consulta := String.substring 0 8 (md5_hexdigest consulta) in
  let palabras := firstn 3 (split (lower consulta)) in
  let nombre_base := String.concat "_" palabras in
  "get_" ++ nombre_base ++ "_" ++ hash_consulta.

(** The text of the generic template of [_usar_template_fallback]. *)
Definition template_generico (consulta : string) : string :=
  nl ++
  "def get_generic_query_fallback():" ++ nl ++
  "    " ++ tdq ++ "Herramienta fallback genérica" ++ tdq ++ nl ++
  "    return f" ++ dq ++ "Respuesta genérica para: " ++ consulta ++ dq ++ nl.

(** [_usar_template_fallback]: [inl msg] when it raises. The [ldap_query]
    template is an f-string whose replacement field [{len(resultado)}] is
    evaluated while the template is built, and [resultado] is not defined
    in that scope: the construction raises [NameError]. *)
Definition usar_template_fallback (consulta tipo : string) : string + string :=
  if String.eqb tipo "ldap_query"
  then inl "name 'resultado' is not defined"
  else inr (template_generico consulta).

(** The texts of the panels printed by [generar_herramienta] and
    [_generar_codigo_con_ia]. *)
Definition panel_generando (consulta : string) : string :=
  "🤖 Generando nueva herramienta para: " ++ consulta.
Definition panel_codigo_generado : string := "✅ Código generado exitosamente".
Definition panel_codigo (codigo : string) : string :=
  "```python" ++ nl ++ codigo ++ nl ++ "```".
Definition panel_sin_codigo : string := "❌ No se pudo extraer código válido".

(** [_generar_codigo_con_ia]: [inl msg] for an exception that escapes it
    (one raised inside its [except] handler), [inr (Some c)] for code,
    [inr None] for the [return None] of a response without code. Its
    [try] covers the provider call and the prints: an exception there
    returns the fallback template. *)
Definition generar_codigo_con_ia (p : proveedor) (consulta tipo : string)
    : string + option string :=
  let respaldo :=
    match usar_template_fallback consulta tipo with
    | inl e => inl e
    | inr c => inr (Some c)
    end in
  let sin_codigo :=
    match fallo_panel panel_sin_codigo with
    | Some _ => respaldo
    | None => inr None
    end in
  match p with
  | ProvExcepcion _ => respaldo
  | ProvRespuesta texto =>
      match extraer_codigo_python texto with
      | Some codigo =>
          if Py.verdadera codigo then
            match fallo_panel panel_codigo_generado with
            | Some _ => respaldo
            | None =>
                match fallo_panel (panel_codigo codigo) with
                | Some _ => respaldo
                | None => inr (Some codigo)
                end
            end
          else sin_codigo
      | None => sin_codigo
      end
  end.

(** [generar_herramienta]; [api_key] is [os.getenv("GEMINI_API_KEY")]. *)
Definition generar_herramienta (api_key : option string) (p : proveedor)
    (consulta tipo : string) : resultado_generacion :=
  let configurada := match api_key with Some k => Py.verdadera k | None => false end in
  if negb configurada then GenError "API key de Gemini no configurada"
  else
    match fallo_panel (panel_generando consulta) with
    | Some e => GenError ("Error en generación: " ++ e)
    | None =>
        match generar_codigo_con_ia p consulta tipo with
        | inl e => GenError ("Error en generación: " ++ e)
        | inr None => GenError "No se pudo generar código para la consulta"
        | inr (Some codigo_generado) =>
            if negb (Py.verdadera codigo_generado)
            then GenError "No se pudo generar código para la consulta"
            else
              match crear_funcion_dinamica codigo_generado consulta with
              | Some funcion_generada =>
                  let nombre_herramienta := generar_nombre_herramienta consulta in
                  GenOk nombre_herramienta funcion_generada codigo_generado tipo consulta
              | None => GenError "Error creando función dinámica"
              end
        end
    end.

End Generador.

Arguments GenError {Funcion}.
Arguments GenOk {Funcion}.
Arguments error {Funcion}.

End Generador.

(* ================================================================= *)
(** ** SistemaAgentes (sistema.py) *)

Module Sistema.

Section Sistema.

Variable F : Type.

(** The state of a [SistemaAgentes]: the mutable fields of its
    coordinator, executor and registry, and its own counters. *)
Record sistema := mkSistema {
  herramientas_disponibles : list string;        (* coordinador.herramientas_disponibles *)
  historial_consultas : list (string * string);  (* coordinador.historial_consultas *)
  ejecutor : Ejecutor.ejecutor F;
  registry : Registry.registro;
  estado : string;
  consultas_procesadas : nat
}.

(** The state updates of [_generar_y_ejecutar_herramienta] once the
    generator has returned [nombre] and [funcion]: add it to the executor,
    register it in the registry, register it in the coordinator. *)
Definition incorporar_herramienta (w : Registry.io) (ahora nombre : string) (funcion : F)
    (metadata : Registry.metadatos) (s : sistema) : sistema :=
  let e' := snd (Ejecutor.agregar_herramienta_generada nombre funcion (ejecutor s)) in
  let r' := snd (Registry.registrar_herramienta w ahora nombre metadata (registry s)) in
  {| herramientas_disponibles :=
       if decide (nombre ∈ herramientas_disponibles s) then herramientas_disponibles s
       else herramientas_disponibles s ++ [nombre];
     historial_consultas := historial_consultas s;
     ejecutor := e';
     registry := r';
     estado := estado s;
     consultas_procesadas := consultas_procesadas s |}.

(** [SistemaAgentes()] on a fresh working directory, where
    [tools_registry.json] does not exist yet, so the registry starts empty.
    A [SistemaAgentes()] over an existing registry file is not modelled. *)
Definition sistema_inicial (importar : string -> F) : sistema :=
  {| herramientas_disponibles := [];
     historial_consultas := [];
     ejecutor := Ejecutor.inicializar importar;
     registry := Registry.registro_vacio;
     estado := "inicializado";
     consultas_procesadas := 0 |}.

(** The dictionary returned by [reset_sistema]. *)
Inductive resultado_reset :=
| ResetOk (herramientas_removidas : nat)
| ResetError (mensaje : string).

(** [reset_sistema]; [borrado] is the outcome of [os.remove]. *)
Definition reset_sistema (borrado : Registry.io) (s : sistema) : resultado_reset * sistema :=
  let '(herramientas_removidas, e') := Ejecutor.reset_herramientas_generadas (ejecutor s) in
  let '(r', exc) := Registry.reset_completo borrado (registry s) in
  match exc with
  | None =>
      (ResetOk herramientas_removidas,
       {| herramientas_disponibles := [];
          historial_consultas := [];
          ejecutor := e';
          registry := r';
          estado := "inicializado";
          consultas_procesadas := 0 |})
  | Some e =>
      (ResetError ("Error en reset: " ++ e),
       {| herramientas_disponibles := herramientas_disponibles s;
          historial_consultas := historial_consultas s;
          ejecutor := e';
          registry := r';
          estado := estado s;
          consultas_procesadas := consultas_procesadas s |})
  end.

End Sistema.

Arguments mkSistema {F}.
Arguments herramientas_disponibles {F}.
Arguments historial_consultas {F}.
Arguments ejecutor {F}.
Arguments registry {F}.
Arguments estado {F}.
Arguments consultas_procesadas {F}.
Arguments incorporar_herramienta {F}.
Arguments reset_sistema {F}.
Arguments sistema_inicial {F}.

End Sistema.

(* ================================================================= *)
(** ** AgenteOfensivo (ofensivo.py) *)

Module Ofensivo.

Section Ofensivo.

(** [T]: the offensive tool callables; [Kw]: their keyword arguments;
    [R]: the values they return. *)
Variables T Kw R : Type.
Variable invocar : T -> Kw -> string + R.

(** An entry of [historial_operaciones]; ["resultado"] holds
    [str(resultado)], kept here as the value itself, and the constant
    fields ["timestamp": "ahora"] and ["tipo": "ofensiva"] are left out. *)
Record operacion := mkOperacion {
  op_herramienta : string;
  op_parametros : Kw;
  op_resultado : R
}.

Record ofensivo := mkOfensivo {
  herramientas_ofensivas : gmap string T;
  historial_operaciones : list operacion
}.

(** The names installed by [_inicializar_herramientas_ofensivas]. *)
Definition nombres_ofensivos : list string := ["tool_rootdse_info"; "tool_anonymous_enum"].

(** [__init__] and [_inicializar_herramientas_ofensivas]. *)
Definition inicializar (importar : string -> T) : ofensivo :=
  {| herramientas_ofensivas := list_to_map (map (fun n => (n, importar n)) nombres_ofensivos);
     historial_operaciones := [] |}.

(** The dictionary returned by [ejecutar_herramienta_ofensiva]. *)
Inductive resultado :=
| OfNoEncontrada (mensaje : string) (herramientas_disponibles : list string)
| OfExitosa (herramienta : string) (valor : R) (parametros : Kw)
    (* {"error": False, "herramienta", "resultado", "tipo": "ofensiva", "timestamp", "parametros"} *)
| OfFallida (mensaje : string) (herramienta : string).

Definition error (r : resultado) : bool :=
  match r with OfNoEncontrada _ _ => true | OfExitosa _ _ _ => false | OfFallida _ _ => true end.

Definition registrar_operacion (herramienta : string) (parametros : Kw) (res : R)
    (o : ofensivo) : ofensivo :=
  {| herramientas_ofensivas := herramientas_ofensivas o;
     historial_operaciones :=
       historial_operaciones o ++
         [{| op_herramienta := herramienta; op_parametros := parametros; op_resultado := res |}] |}.

Definition ejecutar_herramienta_ofensiva (nombre : string) (kwargs : Kw) (o : ofensivo)
    : resultado * ofensivo :=
  match herramientas_ofensivas o !! nombre with
  | None =>
      (OfNoEncontrada ("Herramienta ofensiva '" ++ nombre ++ "' no encontrada")
         (map fst (map_to_list (herramientas_ofensivas o))), o)
  | Some f =>
      match invocar f kwargs with
      | inl e => (OfFallida ("Error ejecutando " ++ nombre ++ ": " ++ e) nombre, o)
      | inr res => (OfExitosa nombre res kwargs, registrar_operacion nombre kwargs res o)
      end
  end.

Definition agregar_herramienta_ofensiva (nombre : string) (funcion : T) (o : ofensivo)
    : bool * ofensivo :=
  (true, {| herramientas_ofensivas := <[nombre := funcion]> (herramientas_ofensivas o);
            historial_operaciones := historial_operaciones o |}).

(** [obtener_historial_operaciones(limite)]:
    [self.historial_operaciones[-limite:] if self.historial_operaciones else []]. *)
Definition obtener_historial_operaciones (limite : Z) (o : ofensivo) : list operacion :=
  match historial_operaciones o with
  | [] => []
  | _ => Py.rebanada_desde (- limite) (historial_operaciones o)
  end.

Definition limpiar_historial (o : ofensivo) : nat * ofensivo :=
  (length (historial_operaciones o),
   {| herramientas_ofensivas := herramientas_ofensivas o; historial_operaciones := [] |}).

End Ofensivo.

Arguments mkOperacion {Kw R}.
Arguments op_herramienta {Kw R}.
Arguments op_parametros {Kw R}.
Arguments op_resultado {Kw R}.
Arguments mkOfensivo {T Kw R}.
Arguments herramientas_ofensivas {T Kw R}.
Arguments historial_operaciones {T Kw R}.
Arguments inicializar {T Kw R}.
Arguments OfNoEncontrada {Kw R}.
Arguments OfExitosa {Kw R}.
Arguments OfFallida {Kw R}.
Arguments error {Kw R}.
Arguments registrar_operacion {T Kw R}.
Arguments ejecutar_herramienta_ofensiva {T Kw R}.
Arguments agregar_herramienta_ofensiva {T Kw R}.
Arguments obtener_historial_operaciones {T Kw R}.
Arguments limpiar_historial {T Kw R}.

End Ofensivo.

(* ================================================================= *)
(** ** SistemaAgentes.procesar_consulta (sistema.py) *)

Module Orquestador.

(** The outcomes of the outside world during one [procesar_consulta]:
    [os.getenv("GEMINI_API_KEY")], the code-generation provider, the write
    of [tools_registry.json] and [datetime.now().isoformat()]. *)
Record entorno := mkEntorno {
  api_key : option string;
  proveedor : Generador.proveedor;
  escritura : Registry.io;
  ahora : string
}.

Section Orquestador.

(** [F], [V]: the executor's callables and their values; [T], [R]: the
    offensive agent's. The agents call their tools without keyword
    arguments here, so [**kwargs] is [unit]. *)
Variables F V T R : Type.
Variable invocar : F -> unit -> string + V.
Variable invocar_ofensiva : T -> unit -> string + R.
(** The library operations of the coordinator and the generator. *)
Variable lower : string -> string.
Variable md5_hexdigest : string -> string.
Variable split : string -> list string.
Variable extraer_codigo_python : string -> option string.
Variable crear_funcion_dinamica : string -> string -> option F.

(** The [SistemaAgentes] state: the coordinator, executor and registry
    fields of [Sistema.sistema] and the offensive agent. *)
Record mundo := mkMundo {
  sistema : Sistema.sistema F;
  ofensivo : Ofensivo.ofensivo T unit R
}.

(** The dictionary returned by [procesar_consulta]. *)
Inductive resultado :=
| HerramientaExistente (herramienta : option string) (r : Ejecutor.resultado V)
    (decision : Coordinador.decision)
    (* _ejecutar_herramienta_existente: {"tipo": "herramienta_existente", ...} *)
| Ofensiva (r : Ofensivo.resultado unit R)
    (* ejecutar_herramienta_ofensiva: the offensive agent's dictionary *)
| ErrorGeneracion (mensaje : string) (decision : Coordinador.decision)
    (* {"tipo": "error_generacion", "error": True, ...} *)
| HerramientaGenerada (herramienta : string) (resultado_generacion : Generador.resultado_generacion F)
    (resultado_ejecucion : Ejecutor.resultado V) (decision : Coordinador.decision)
    (* {"tipo": "herramienta_generada", ...} *)
| ErrorProcesando (consulta : string)
    (* the except branch: {"error": True, "mensaje": "Error procesando consulta: " + str(e),
       "consulta": consulta} *).

(** [str(resultado)] *)
Variable repr : resultado -> string.

Definition con_sistema (s : Sistema.sistema F) (m : mundo) : mundo :=
  {| sistema := s; ofensivo := ofensivo m |}.

(** [self.coordinador.registrar_consulta(consulta, resultado)]; the
    constant field ["timestamp": "ahora"] is left out. *)
Definition registrar_consulta (consulta res : string) (s : Sistema.sistema F) : Sistema.sistema F :=
  {| Sistema.herramientas_disponibles := Sistema.herramientas_disponibles s;
     Sistema.historial_consultas := Sistema.historial_consultas s ++ [(consulta, res)];
     Sistema.ejecutor := Sistema.ejecutor s;
     Sistema.registry := Sistema.registry s;
     Sistema.estado := Sistema.estado s;
     Sistema.consultas_procesadas := Sistema.consultas_procesadas s |}.

Definition con_estado (estado : string) (consultas : nat) (s : Sistema.sistema F) : Sistema.sistema F :=
  {| Sistema.herramientas_disponibles := Sistema.herramientas_disponibles s;
     Sistema.historial_consultas := Sistema.historial_consultas s;
     Sistema.ejecutor := Sistema.ejecutor s;
     Sistema.registry := Sistema.registry s;
     Sistema.estado := estado;
     Sistema.consultas_procesadas := consultas |}.

Definition con_registry (r : Registry.registro) (s : Sistema.sistema F) : Sistema.sistema F :=
  {| Sistema.herramientas_disponibles := Sistema.herramientas_disponibles s;
     Sistema.historial_consultas := Sistema.historial_consultas s;
     Sistema.ejecutor := Sistema.ejecutor s;
     Sistema.registry := r;
     Sistema.estado := Sistema.estado s;
     Sistema.consultas_procesadas := Sistema.consultas_procesadas s |}.

(** [SistemaAgentes.ejecutar_herramienta_ofensiva(nombre)]. The display
    helpers it imports live in [agentesai.tools_offensive], not in
    [agentesai.agent.tools_offensive]: their relative import raises
    [ImportError], which is caught, so they only print. *)
Definition ejecutar_herramienta_ofensiva (nombre : string) (m : mundo)
    : Ofensivo.resultado unit R * mundo :=
  let '(res, o') := Ofensivo.ejecutar_herramienta_ofensiva invocar_ofensiva nombre tt (ofensivo m) in
  (res, {| sistema := registrar_consulta ("herramienta_ofensiva:" ++ nombre) (repr (Ofensiva res))
                        (sistema m);
           ofensivo := o' |}).

(** [_ejecutar_herramienta_existente(decision)]; [None] when
    [registry.incrementar_uso] raises. [ejecutar_herramienta(None)] finds
    no tool and answers the not-found dictionary. *)
Definition ejecutar_herramienta_existente (ahora : string) (herramienta : option string)
    (decision : Coordinador.decision) (m : mundo) : option (resultado * mundo) :=
  let e := Sistema.ejecutor (sistema m) in
  let res :=
    match herramienta with
    | Some nombre => Ejecutor.ejecutar_herramienta invocar e nombre tt
    | None => Ejecutor.NoEncontrada "Herramienta 'None' no encontrada"
                (Ejecutor.claves (Ejecutor.herramientas e))
    end in
  match herramienta with
  | Some nombre =>
      if Ejecutor.error res then Some (HerramientaExistente herramienta res decision, m)
      else
        match Registry.incrementar_uso ahora nombre (Sistema.registry (sistema m)) with
        | Some r' => Some (HerramientaExistente herramienta res decision,
                           con_sistema (con_registry r' (sistema m)) m)
        | None => None
        end
  | None => Some (HerramientaExistente herramienta res decision, m)
  end.

(** Console output is taken not to raise in [SistemaAgentes] (see
    [procesar_consulta]); the generator prints on this console. *)
Definition consola_sin_fallos (_ : string) : option string := None.

(** [_generar_y_ejecutar_herramienta(decision)]. *)
Definition generar_y_ejecutar_herramienta (env : entorno) (consulta tipo : string)
    (decision : Coordinador.decision) (m : mundo) : resultado * mundo :=
  match Generador.generar_herramienta F md5_hexdigest lower split extraer_codigo_python
          crear_funcion_dinamica consola_sin_fallos (api_key env) (proveedor env) consulta tipo with
  | Generador.GenError mensaje => (ErrorGeneracion mensaje decision, m)
  | Generador.GenOk nombre funcion codigo tipo_gen consulta_original =>
      let metadata : Registry.metadatos :=
        <["tipo" := Registry.VStr tipo]> (<["consulta_original" := Registry.VStr consulta]>
          (<["codigo_generado" := Registry.VStr codigo]>
            {["fecha_generacion" := Registry.VStr "ahora"]})) in
      let s1 := Sistema.incorporar_herramienta (escritura env) (ahora env) nombre funcion metadata
                  (sistema m) in
      let resultado_ejecucion := Ejecutor.ejecutar_herramienta invocar (Sistema.ejecutor s1) nombre tt in
      (HerramientaGenerada nombre (Generador.GenOk nombre funcion codigo tipo_gen consulta_original)
         resultado_ejecucion decision,
       con_sistema s1 m)
  end.

(** The names [procesar_consulta] sends to the offensive agent. *)
Definition nombres_ruta_ofensiva : list string :=
  ["tool_rootdse_info"; "tool_anonymous_enum"; "tool_starttls_test"].

(** [procesar_consulta(consulta)]. The [if]/[elif] chain on
    [decision["herramienta"]] calls [ejecutar_herramienta_ofensiva] with the
    name it compared against, i.e. with [decision["herramienta"]] itself.
    Console output is taken not to raise. *)
Definition procesar_consulta (env : entorno) (consulta : string) (m : mundo) : resultado * mundo :=
  let s0 := sistema m in
  let m1 := con_sistema (con_estado "procesando" (S (Sistema.consultas_procesadas s0)) s0) m in
  let decision := Coordinador.analizar_consulta lower consulta in
  let paso :=
    match decision with
    | Coordinador.Ejecutar herramienta _ =>
        match herramienta with
        | Some nombre =>
            if existsb (String.eqb nombre) nombres_ruta_ofensiva then
              let '(res, m2) := ejecutar_herramienta_ofensiva nombre m1 in Some (Ofensiva res, m2)
            else ejecutar_herramienta_existente (ahora env) herramienta decision m1
        | None => ejecutar_herramienta_existente (ahora env) herramienta decision m1
        end
    | Coordinador.Generar c tipo => Some (generar_y_ejecutar_herramienta env c tipo decision m1)
    end in
  match paso with
  | Some (res, m2) =>
      let s2 := sistema m2 in
      (res, con_sistema (con_estado "listo" (Sistema.consultas_procesadas s2)
                           (registrar_consulta consulta (repr res) s2)) m2)
  | None =>
      (ErrorProcesando consulta,
       con_sistema (con_estado "error" (Sistema.consultas_procesadas (sistema m1)) (sistema m1)) m1)
  end.

(** [SistemaAgentes()] on a fresh working directory, where
    [tools_registry.json] does not exist yet, so the registry starts empty.
    A [SistemaAgentes()] over an existing registry file is not modelled. *)
Definition mundo_inicial (importar : string -> F) (importar_ofensiva : string -> T) : mundo :=
  {| sistema := Sistema.sistema_inicial importar;
     ofensivo := Ofensivo.inicializar importar_ofensiva |}.

(** What a user does with a [SistemaAgentes]: process a request, or
    [reset_sistema]. *)
Inductive operacion :=
| OpProcesar (env : entorno) (consulta : string)
| OpReset (borrado : Registry.io).

Definition paso (o : operacion) (m : mundo) : mundo :=
  match o with
  | OpProcesar env consulta => snd (procesar_consulta env consulta m)
  | OpReset borrado => con_sistema (snd (Sistema.reset_sistema borrado (sistema m))) m
  end.

Definition ejecutar_ops (ops : list operacion) (m : mundo) : mundo :=
  foldl (fun m o => paso o m) m ops.

(** What every state reached from [mundo_inicial importar importar_ofensiva]
    satisfies: the executor invariant with the builtin mapping of
    [_inicializar_herramientas_base]; the registry holds an entry exactly
    for the synthesized tools of the executor, and the coordinator lists
    each of them; the offensive tools are those of
    [_inicializar_herramientas_ofensivas]. *)
Definition inv_mundo (importar : string -> F) (importar_ofensiva : string -> T) (m : mundo) : Prop :=
  Ejecutor.invariante (Sistema.ejecutor (sistema m)) /\
  Ejecutor.herramientas_base (Sistema.ejecutor (sistema m)) =
    Ejecutor.herramientas_base (Ejecutor.inicializar importar) /\
  (forall n, is_Some (Ejecutor.herramientas_generadas (Sistema.ejecutor (sistema m)) !! n) <->
     is_Some (Registry.herramientas_registradas (Sistema.registry (sistema m)) !! n)) /\
  (forall n, is_Some (Ejecutor.herramientas_generadas (Sistema.ejecutor (sistema m)) !! n) ->
     n ∈ Sistema.herramientas_disponibles (sistema m)) /\
  Ofensivo.herramientas_ofensivas (ofensivo m) =
    Ofensivo.herramientas_ofensivas (Ofensivo.inicializar (Kw:=unit) (R:=R) importar_ofensiva).

End Orquestador.

Arguments mkMundo {F T R}.
Arguments sistema {F T R}.
Arguments ofensivo {F T R}.
Arguments HerramientaExistente {F V R}.
Arguments Ofensiva {F V R}.
Arguments ErrorGeneracion {F V R}.
Arguments HerramientaGenerada {F V R}.
Arguments ErrorProcesando {F V R}.
Arguments con_sistema {F T R}.
Arguments registrar_consulta {F}.
Arguments con_estado {F}.
Arguments con_registry {F}.
Arguments ejecutar_herramienta_ofensiva {F V T R}.
Arguments ejecutar_herramienta_existente {F V T R}.
Arguments generar_y_ejecutar_herramienta {F V T R}.
Arguments procesar_consulta {F V T R}.
Arguments mundo_inicial {F T R}.
Arguments paso {F V T R}.
Arguments ejecutar_ops {F V T R}.
Arguments inv_mundo {F T R}.

End Orquestador.

(* ================================================================= *)
(** ** Concrete instances used by the examples *)

Module Ejemplos.

(** Callables are represented by their names; calling one returns it. *)
Definition llamar (f : string) (_ : unit) : string + string := inr f.

(** The executor right after [AgenteEjecutor()]. *)
Definition estado0 : Ejecutor.ejecutor string := Ejecutor.inicializar (fun n => n).

(** A registry where "get_x_ab12cd34" was used five times and then
    deregistered. *)
Definition registro_usado : Registry.registro :=
  {| Registry.herramientas_registradas :=
       {["get_x_ab12cd34" :=
           <["uso_count" := Registry.VInt 5]> {["estado" := Registry.VStr "inactiva"]}]};
     Registry.historial_herramientas := [];
     Registry.disco := None |}.

(** A fixed stand-in for [hashlib.md5(...).hexdigest()]. *)
Definition md5_fijo (_ : string) : string := "ab12cd34ef567890ab12cd34ef567890".

(** [_extraer_codigo_python] taking a whole answer as code, and [exec]
    succeeding with the code itself as the function object. *)
Definition extraer_todo (texto : string) : option string := Some texto.
Definition crear_siempre (codigo _ : string) : option string := Some codigo.

(** A console that raises when the first markup tag of the text closes a
    style, where rich raises [MarkupError] (the message stands for rich's
    "closing tag ... has nothing to close"), and prints every other text.
    It agrees with rich on the texts of the examples below, none of which
    holds another malformed tag. *)
Definition consola (texto : string) : option string :=
  if Rich.primera_etiqueta_cierra texto then Some "MarkupError" else None.

(** The system after "get_x_ab12cd34" was synthesized and incorporated. *)
Definition sistema1 : Sistema.sistema string :=
  Sistema.incorporar_herramienta Registry.IoOk "2026-10-17" "get_x_ab12cd34" "f" ∅
    (Sistema.sistema_inicial (fun n => n)).

End Ejemplos.

(* ================================================================= *)
(** * Properties *)

(* ----------------------------------------------------------------- *)
(** ** Substring search *)

Module PyFacts.
Import Py.

Lemma prefix_spec (p s : string) : String.prefix p s = true <-> exists b, s = p ++ b.
Proof.
  revert s; induction p as [|c p IH]; intros s.
  - split; [intros _; now exists s | destruct s; reflexivity].
  - destruct s as [|c' s]; simpl.
    + split; [discriminate | intros [b Hb]; discriminate].
    + destruct (ascii_dec c c') as [<-|Hne].
      * rewrite IH. split; intros [b Hb]; exists b; [now subst | now inversion Hb].
      * split; [discriminate | intros [b Hb]; inversion Hb; congruence].
Qed.

Lemma append_cons (c : ascii) (a b : string) : String c a ++ b = String c (a ++ b).
Proof. reflexivity. Qed.

Lemma contiene_unfold (p s : string) :
  contiene p s = String.prefix p s ||
                 match s with EmptyString => false | String _ s' => contiene p s' end.
Proof. destruct s; reflexivity. Qed.

Lemma contiene_spec (p s : string) :
  contiene p s = true <-> exists a b, s = a ++ p ++ b.
Proof.
  induction s as [|c s IH]; rewrite contiene_unfold.
  - rewrite orb_false_r, prefix_spec. split.
    + intros [b Hb]. exists EmptyString, b. exact Hb.
    + intros [a [b Hab]]. destruct a; [now exists b | discriminate].
  - rewrite orb_true_iff, prefix_spec, IH. split.
    + intros [[b Hb] | [a [b Hab]]].
      * exists EmptyString, b. exact Hb.
      * exists (String c a), b. now rewrite Hab, append_cons.
    + intros [a [b Hab]]. destruct a as [|c' a]; [|rewrite append_cons in Hab].
      * left. now exists b.
      * right. inversion Hab; subst. now exists a, b.
Qed.

Lemma append_assoc (a b c : string) : (a ++ b) ++ c = a ++ b ++ c.
Proof. induction a as [|x a IH]; [reflexivity | rewrite !append_cons, IH; reflexivity]. Qed.

(** Substring occurrence is transitive. *)
Lemma contiene_trans (t p s : string) :
  contiene t p = true -> contiene p s = true -> contiene t s = true.
Proof.
  rewrite !contiene_spec. intros [a1 [b1 ->]] [a2 [b2 ->]].
  exists (a2 ++ a1), (b1 ++ b2). now rewrite !append_assoc.
Qed.

Lemma alguno_false (pats : list string) (s : string) :
  alguno pats s = false -> forall p, In p pats -> contiene p s = false.
Proof.
  unfold alguno. intros H p Hp.
  destruct (contiene p s) eqn:E; [|reflexivity].
  rewrite <- H. symmetry. apply existsb_exists. now exists p.
Qed.

Lemma alguno_true (pats : list string) (s : string) :
  alguno pats s = true <-> exists p, In p pats /\ contiene p s = true.
Proof. unfold alguno. apply existsb_exists. Qed.

End PyFacts.

(* ----------------------------------------------------------------- *)
(** ** The classifier *)

Module CoordinadorProps.
Import Coordinador PyFacts.

Lemma cobertura_ok : cobertura = true.
Proof. vm_compute. reflexivity. Qed.

(** When [_identificar_herramienta] answers [None], no trigger occurs in
    the lowered request. *)
Lemma identificar_None (lower : string -> string) (c : string) :
  identificar_herramienta lower c = None ->
  forall t, In t filas_identificar -> Py.contiene t (lower c) = false.
Proof.
  unfold identificar_herramienta. intros H t Ht. cbv zeta in H.
  repeat match goal with
  | H : context [if Py.alguno ?r ?x then _ else _] |- _ =>
      let E := fresh "E" in
      destruct (Py.alguno r x) eqn:E; [discriminate|]
  end.
  unfold filas_identificar in Ht. rewrite !in_app_iff in Ht.
  repeat match goal with
  | Ht : _ \/ _ |- _ => destruct Ht as [Ht|Ht]
  end; (eapply alguno_false; [|exact Ht]); assumption.
Qed.

(** Claim C10: every request on which [_puede_responder_directamente]
    holds is resolved to a concrete tool name by
    [_identificar_herramienta], so the "ejecutar" decision produced by
    [analizar_consulta] always carries a tool name (never [None]); this
    holds for any implementation of [str.lower]. *)
Theorem ejecutar_resuelve_herramienta (lower : string -> string) (consulta : string) :
  puede_responder_directamente lower consulta = true ->
  exists nombre, identificar_herramienta lower consulta = Some nombre /\
                 analizar_consulta lower consulta = Ejecutar (Some nombre) consulta.
Proof.
  intros Hp.
  destruct (identificar_herramienta lower consulta) as [nombre|] eqn:Hid.
  - exists nombre. split; [reflexivity|]. unfold analizar_consulta. now rewrite Hp, Hid.
  - exfalso. unfold puede_responder_directamente in Hp.
    apply alguno_true in Hp as [p [Hin Hc]].
    pose proof cobertura_ok as Hcob. unfold cobertura in Hcob.
    rewrite forallb_forall in Hcob. apply Hcob, alguno_true in Hin as [t [Ht Htp]].
    pose proof (identificar_None lower consulta Hid t Ht) as Hf.
    rewrite (contiene_trans t p (lower consulta) Htp Hc) in Hf. discriminate.
Qed.

Lemma ejecutar_resuelve_herramienta_witness :
  puede_responder_directamente Py.ascii_lower "Who am I?" = true /\
  exists nombre, identificar_herramienta Py.ascii_lower "Who am I?" = Some nombre /\
    analizar_consulta Py.ascii_lower "Who am I?" = Ejecutar (Some nombre) "Who am I?".
Proof.
  split; [vm_compute; reflexivity|].
  apply ejecutar_resuelve_herramienta. vm_compute. reflexivity.
Defined.

(** Once the print of the request has returned, when no known pattern
    occurs in the lowered request, the decision of [analizar_consulta] is
    "generar" and carries the category
    of [_determinar_tipo_herramienta], which is "ldap_query" or
    "generic_query", and "generic_query" when no category keyword occurs. *)
Theorem analizar_generar_con_tipo (lower : string -> string) (consulta : string) :
  puede_responder_directamente lower consulta = false ->
  analizar_consulta lower consulta = Generar consulta (determinar_tipo_herramienta lower consulta) /\
  accion (analizar_consulta lower consulta) = "generar" /\
  (determinar_tipo_herramienta lower consulta = "ldap_query" \/
   determinar_tipo_herramienta lower consulta = "generic_query") /\
  (Py.alguno palabras_tipo (lower consulta) = false ->
   determinar_tipo_herramienta lower consulta = "generic_query").
Proof.
  intros Hp. unfold analizar_consulta. rewrite Hp.
  split; [reflexivity|]. split; [reflexivity|].
  unfold determinar_tipo_herramienta, palabras_tipo, Py.alguno. simpl.
  destruct (Py.contiene "grupos" (lower consulta)), (Py.contiene "groups" (lower consulta)),
           (Py.contiene "usuarios" (lower consulta)), (Py.contiene "users" (lower consulta)),
           (Py.contiene "departamento" (lower consulta)),
           (Py.contiene "department" (lower consulta)); simpl;
    split; auto; discriminate.
Qed.

Lemma analizar_generar_con_tipo_witness :
  puede_responder_directamente Py.ascii_lower "What is the weather" = false /\
  analizar_consulta Py.ascii_lower "What is the weather" =
    Generar "What is the weather"
      (determinar_tipo_herramienta Py.ascii_lower "What is the weather") /\
  accion (analizar_consulta Py.ascii_lower "What is the weather") = "generar" /\
  (determinar_tipo_herramienta Py.ascii_lower "What is the weather" = "ldap_query" \/
   determinar_tipo_herramienta Py.ascii_lower "What is the weather" = "generic_query") /\
  (Py.alguno palabras_tipo (Py.ascii_lower "What is the weather") = false ->
   determinar_tipo_herramienta Py.ascii_lower "What is the weather" = "generic_query").
Proof.
  split; [vm_compute; reflexivity|].
  apply analizar_generar_con_tipo. vm_compute. reflexivity.
Defined.

(** The panel of the request holds a closing first tag exactly when the
    request does: its prefix has no "[" and no backslash. *)
Lemma panel_analizando_etiqueta (consulta : string) :
  Rich.primera_etiqueta_cierra (panel_analizando consulta) =
  Rich.primera_etiqueta_cierra consulta.
Proof. reflexivity. Qed.

(** Claim C7 (a bug of the code): [analizar_consulta] raises on some
    requests. Its first statement prints a [Panel] of the request through
    a rich [Console], which reads the text as markup, and no [try] guards
    it; for every console that raises on a text whose first markup tag
    closes a style (rich's [MarkupError], "closing tag ... has nothing to
    close"), a request whose first tag is such a tag, for instance "[/]",
    makes the call raise instead of returning a decision. *)
Theorem analizar_consulta_lanza (lower : string -> string)
    (fallo_panel : string -> option string) (consulta : string) :
  (forall texto, Rich.primera_etiqueta_cierra texto = true -> is_Some (fallo_panel texto)) ->
  Rich.primera_etiqueta_cierra consulta = true ->
  exists e, analizar_consulta_py lower fallo_panel consulta = inl e.
Proof.
  intros Hf Hc. unfold analizar_consulta_py.
  rewrite <- panel_analizando_etiqueta in Hc.
  destruct (Hf _ Hc) as [e He]. rewrite He. exists e. reflexivity.
Qed.

Lemma analizar_consulta_lanza_witness :
  (forall texto, Rich.primera_etiqueta_cierra texto = true -> is_Some (Ejemplos.consola texto)) /\
  Rich.primera_etiqueta_cierra "[/]" = true /\
  analizar_consulta_py Py.ascii_lower Ejemplos.consola "[/]" = inl "MarkupError" /\
  exists e, analizar_consulta_py Py.ascii_lower Ejemplos.consola "[/]" = inl e.
Proof.
  assert (Hf : forall texto, Rich.primera_etiqueta_cierra texto = true ->
                             is_Some (Ejemplos.consola texto)).
  { intros texto H. unfold Ejemplos.consola. rewrite H. eexists. reflexivity. }
  assert (Hc : Rich.primera_etiqueta_cierra "[/]" = true) by reflexivity.
  split; [exact Hf|]. split; [exact Hc|]. split; [vm_compute; reflexivity|].
  exact (analizar_consulta_lanza Py.ascii_lower Ejemplos.consola "[/]" Hf Hc).
Defined.

Example analizar_departamentos :
  analizar_consulta Py.ascii_lower "how many departments exist" =
    Generar "how many departments exist" "ldap_query".
Proof. vm_compute. reflexivity. Qed.

End CoordinadorProps.

(* ----------------------------------------------------------------- *)
(** ** The executor *)

Module EjecutorProps.
Import Ejecutor.

Section Props.

Variable F : Type.
Implicit Types (s : ejecutor F) (n : string) (f : F).

Lemma claves_spec (m : gmap string F) (k : string) :
  In k (claves m) <-> is_Some (m !! k).
Proof.
  unfold claves. rewrite in_map_iff. split.
  - intros [[k' v] [Hk Hin]]. simpl in Hk. subst k'. exists v.
    apply elem_of_map_to_list, list_elem_of_In. exact Hin.
  - intros [v Hv]. exists (k, v). split; [reflexivity|].
    apply list_elem_of_In, elem_of_map_to_list. exact Hv.
Qed.

Lemma length_claves (m : gmap string F) : length (claves m) = size m.
Proof. unfold claves. rewrite length_map. apply length_map_to_list. Qed.

Lemma inicializar_base (importar : string -> F) n :
  n ∉ nombres_base -> herramientas_base (inicializar importar) !! n = None.
Proof.
  intros Hn. apply not_elem_of_list_to_map_1.
  change ((map (fun n => (n, importar n)) nombres_base).*1) with nombres_base. exact Hn.
Qed.

Lemma inicializar_inv (importar : string -> F) : invariante (inicializar importar).
Proof.
  unfold invariante, inicializar. simpl. split.
  - rewrite (right_id_L ∅ (∪)), (left_id_L ∅ (∪)). reflexivity.
  - apply map_disjoint_empty_l.
Qed.

Lemma agregar_inv s n f :
  invariante s -> herramientas_base s !! n = None ->
  invariante (snd (agregar_herramienta_generada n f s)).
Proof.
  intros [Hh Hd] Hb. unfold invariante. simpl. split.
  - rewrite Hh. apply insert_union_l.
  - apply map_disjoint_insert_l_2; assumption.
Qed.

Lemma remover_inv s n : invariante s -> invariante (snd (remover_herramienta_generada n s)).
Proof.
  intros [Hh Hd]. unfold remover_herramienta_generada.
  destruct (herramientas_generadas s !! n) as [f|] eqn:Hg; [|split; assumption].
  unfold invariante. simpl. split.
  - rewrite Hh, delete_union. f_equal. apply delete_id.
    eapply map_disjoint_Some_l; eassumption.
  - apply map_disjoint_delete_l. exact Hd.
Qed.

Lemma remover_base s n :
  herramientas_base (snd (remover_herramienta_generada n s)) = herramientas_base s.
Proof. unfold remover_herramienta_generada. destruct (_ !! n); reflexivity. Qed.

Lemma remover_generadas s n :
  herramientas_generadas (snd (remover_herramienta_generada n s)) =
  delete n (herramientas_generadas s).
Proof.
  unfold remover_herramienta_generada.
  destruct (herramientas_generadas s !! n) eqn:Hg; [reflexivity|].
  symmetry. apply delete_id. exact Hg.
Qed.

Lemma remover_todas_inv (l : list string) s :
  invariante s -> invariante (remover_todas l s).
Proof.
  revert s. induction l as [|n l IH]; intros s Hs; simpl; [exact Hs|].
  apply IH, remover_inv, Hs.
Qed.

Lemma remover_todas_base (l : list string) s :
  herramientas_base (remover_todas l s) = herramientas_base s.
Proof.
  revert s. induction l as [|n l IH]; intros s; simpl; [reflexivity|].
  rewrite IH. apply remover_base.
Qed.

Lemma remover_todas_generadas (l : list string) s k :
  herramientas_generadas (remover_todas l s) !! k =
  if decide (k ∈ l) then None else herramientas_generadas s !! k.
Proof.
  revert s. induction l as [|n l IH]; intros s; simpl; [reflexivity|].
  rewrite IH, remover_generadas.
  destruct (decide (k ∈ l)) as [Hin|Hnin]; destruct (decide (k ∈ n :: l)) as [H|H].
  - reflexivity.
  - exfalso. apply H. apply elem_of_cons. now right.
  - apply elem_of_cons in H as [->|H]; [apply lookup_delete_eq | contradiction].
  - apply lookup_delete_ne. intros ->. apply H, elem_of_cons. now left.
Qed.

Lemma reset_generadas_vacias s :
  herramientas_generadas (snd (reset_herramientas_generadas s)) = ∅.
Proof.
  unfold reset_herramientas_generadas. simpl. apply map_eq. intros k.
  rewrite remover_todas_generadas, lookup_empty.
  destruct (decide _) as [_|Hn]; [reflexivity|].
  destruct (herramientas_generadas s !! k) eqn:Hk; [|reflexivity].
  exfalso. apply Hn, list_elem_of_In, claves_spec. rewrite Hk. eexists; reflexivity.
Qed.

Lemma reset_inv s : invariante s -> invariante (snd (reset_herramientas_generadas s)).
Proof. intros Hs. apply remover_todas_inv, Hs. Qed.

(** After [reset_herramientas_generadas], in an invariant state, the live
    mapping is the builtin mapping. *)
Lemma reset_herramientas_base s :
  invariante s ->
  herramientas (snd (reset_herramientas_generadas s)) = herramientas_base s.
Proof.
  intros Hs. destruct (reset_inv s Hs) as [Hh _].
  rewrite Hh, reset_generadas_vacias, (left_id_L ∅ (∪)).
  unfold reset_herramientas_generadas. simpl. apply remover_todas_base.
Qed.

Lemma paso_base (o : operacion F) s : herramientas_base (paso o s) = herramientas_base s.
Proof.
  destruct o; simpl; [reflexivity | apply remover_base | apply remover_todas_base].
Qed.

Lemma ejecutar_ops_base (ops : list (operacion F)) s :
  herramientas_base (ejecutar_ops ops s) = herramientas_base s.
Proof.
  revert s. induction ops as [|o ops IH]; intros s; simpl; [reflexivity|].
  rewrite IH. apply paso_base.
Qed.

(** [generadas_incluidas] holds in every state reachable from
    [inicializar] by any operations: the [del] of
    [remover_herramienta_generada] never raises [KeyError]. *)
Lemma paso_incluidas (o : operacion F) s :
  generadas_incluidas s -> generadas_incluidas (paso o s).
Proof.
  assert (Hrem : forall n s, generadas_incluidas s ->
            generadas_incluidas (snd (remover_herramienta_generada n s))).
  { intros n s0 H k. unfold remover_herramienta_generada.
    destruct (herramientas_generadas s0 !! n); simpl; [|apply H].
    destruct (decide (n = k)) as [->|Hne].
    - rewrite lookup_delete_eq. intros [? ?]; discriminate.
    - rewrite !lookup_delete_ne by exact Hne. apply H. }
  intros H. destruct o as [n f|n|].
  - intros k. unfold paso, agregar_herramienta_generada. simpl.
    destruct (decide (n = k)) as [->|Hne].
    + rewrite !lookup_insert_eq. auto.
    + rewrite !lookup_insert_ne by exact Hne. apply H.
  - apply Hrem, H.
  - unfold paso, reset_herramientas_generadas, remover_todas. simpl.
    generalize (claves (herramientas_generadas s)). intros l.
    revert s H. induction l as [|n l IH]; intros s0 H0; simpl; [exact H0|].
    apply IH, Hrem, H0.
Qed.

Lemma generadas_en_herramientas (importar : string -> F) (ops : list (operacion F)) :
  generadas_incluidas (ejecutar_ops ops (inicializar importar)).
Proof.
  assert (H0 : generadas_incluidas (inicializar importar)).
  { intros k [x Hx]. simpl in Hx. rewrite lookup_empty in Hx. discriminate. }
  revert H0. generalize (inicializar importar). unfold ejecutar_ops.
  induction ops as [|o ops IH]; intros s H; simpl; [exact H|].
  apply IH, paso_incluidas, H.
Qed.

Lemma paso_inv (o : operacion F) s :
  invariante s ->
  match o with OpAgregar n _ => herramientas_base s !! n = None | _ => True end ->
  invariante (paso o s).
Proof.
  intros Hs Ho. destruct o as [n f|n|]; simpl.
  - apply agregar_inv; assumption.
  - apply remover_inv, Hs.
  - apply reset_inv, Hs.
Qed.

(** Claim C2 (amended): from the initial state, any sequence of
    [agregar_herramienta_generada] calls under non-builtin names,
    [remover_herramienta_generada] and [reset_herramientas_generadas]
    calls reaches a state where [herramientas] is the union of
    [herramientas_generadas] and [herramientas_base], with disjoint
    domains (so no builtin callable is replaced). *)
Theorem invariante_alcanzable (importar : string -> F) (ops : list (operacion F)) :
  Forall agregar_no_base ops -> invariante (ejecutar_ops ops (inicializar importar)).
Proof.
  intros Hops.
  assert (Hgen : forall s, invariante s ->
            herramientas_base s = herramientas_base (inicializar importar) ->
            invariante (ejecutar_ops ops s)).
  { induction Hops as [|o ops Ho Hops IH]; intros s Hs Hb; simpl; [exact Hs|].
    apply IH.
    - apply paso_inv; [exact Hs|]. destruct o as [n f|n|]; try exact I.
      rewrite Hb. apply inicializar_base, Ho.
    - rewrite paso_base. exact Hb. }
  apply Hgen; [apply inicializar_inv | reflexivity].
Qed.


(** Claim C8 (amended): executing a name absent from the live mapping
    returns the not-found dictionary (["error"] is [True]) whose
    ["herramientas_disponibles"] lists exactly the names of the live
    mapping; in a state satisfying the invariant that list contains every
    builtin name. *)
Theorem ejecutar_no_encontrada {Args V : Type} (invocar : F -> Args -> string + V)
    s n (kwargs : Args) :
  herramientas s !! n = None ->
  (exists mensaje, ejecutar_herramienta invocar s n kwargs =
                   NoEncontrada mensaje (claves (herramientas s))) /\
  error (ejecutar_herramienta invocar s n kwargs) = true /\
  (forall k, In k (claves (herramientas s)) <-> is_Some (herramientas s !! k)) /\
  (invariante s -> forall k, is_Some (herramientas_base s !! k) ->
                             In k (claves (herramientas s))).
Proof.
  intros Hn. unfold ejecutar_herramienta. rewrite Hn.
  split; [eexists; reflexivity|]. split; [reflexivity|].
  split; [apply claves_spec|].
  intros [Hh Hd] k [b Hb]. apply claves_spec. rewrite Hh.
  rewrite (lookup_union_r _ _ _ (map_disjoint_Some_r _ _ _ _ Hd Hb)), Hb.
  eexists; reflexivity.
Qed.

End Props.

End EjecutorProps.

(* ----------------------------------------------------------------- *)
(** ** The executor on concrete states *)

Module EjecutorEjemplos.
Import Ejecutor EjecutorProps Ejemplos.

(** Counterexample to claim C2: [agregar_herramienta_generada] replaces
    the builtin callable of "reset_system", and a later
    [remover_herramienta_generada] deletes that builtin from the live
    mapping, which is then neither [generadas ∪ base] nor
    [base ∪ generadas]. *)
Lemma agregar_reemplaza_builtin :
  let s1 := ejecutar_ops [OpAgregar "reset_system" "nueva"] estado0 in
  let s2 := ejecutar_ops [OpAgregar "reset_system" "nueva"; OpRemover "reset_system"] estado0 in
  herramientas_base s1 !! "reset_system" = Some "reset_system" /\
  herramientas s1 !! "reset_system" = Some "nueva" /\
  herramientas s2 <> herramientas_generadas s2 ∪ herramientas_base s2 /\
  herramientas s2 <> herramientas_base s2 ∪ herramientas_generadas s2.
Proof.
  split; [vm_compute; reflexivity|]. split; [vm_compute; reflexivity|].
  split; intros H;
    apply (f_equal (fun m : gmap string string => m !! "reset_system")) in H;
    vm_compute in H; discriminate.
Qed.


(** Counterexample to claim C8: in the state above, executing the builtin
    name "reset_system" is a not-found result whose list of available
    tools lacks that builtin name. *)
Lemma no_encontrada_sin_builtin :
  let s2 := ejecutar_ops [OpAgregar "reset_system" "nueva"; OpRemover "reset_system"] estado0 in
  is_Some (herramientas_base s2 !! "reset_system") /\
  exists mensaje disponibles,
    ejecutar_herramienta llamar s2 "reset_system" tt = NoEncontrada mensaje disponibles /\
    ~ In "reset_system" disponibles.
Proof.
  split; [vm_compute; eexists; reflexivity|].
  eexists; eexists; split; [vm_compute; reflexivity|].
  vm_compute. intros H. repeat (destruct H as [H|H]; [discriminate|]). exact H.
Qed.

Lemma invariante_alcanzable_witness :
  Forall agregar_no_base
    [OpAgregar "get_x_ab12cd34" "f"; OpRemover "get_x_ab12cd34"; OpReset] /\
  invariante (ejecutar_ops
    [OpAgregar "get_x_ab12cd34" "f"; OpRemover "get_x_ab12cd34"; OpReset] estado0).
Proof.
  assert (H : Forall agregar_no_base
    [OpAgregar "get_x_ab12cd34" "f"; OpRemover "get_x_ab12cd34"; (OpReset : operacion string)]).
  { repeat constructor. simpl. apply (bool_decide_unpack _). vm_compute. reflexivity. }
  split; [exact H|]. apply invariante_alcanzable. exact H.
Defined.


Lemma ejecutar_no_encontrada_witness :
  herramientas estado0 !! "get_x_ab12cd34" = None /\
  error (ejecutar_herramienta llamar estado0 "get_x_ab12cd34" tt) = true.
Proof.
  assert (Hn : herramientas estado0 !! "get_x_ab12cd34" = None) by (vm_compute; reflexivity).
  split; [exact Hn|].
  destruct (ejecutar_no_encontrada string llamar estado0 _ tt Hn) as [_ [He _]]. exact He.
Defined.

End EjecutorEjemplos.

(* ----------------------------------------------------------------- *)
(** ** The registry *)

Module RegistryProps.
Import Registry.

Lemma guardar_herramientas w ahora r :
  herramientas_registradas (guardar_registro w ahora r) = herramientas_registradas r.
Proof. destruct w; reflexivity. Qed.

Lemma guardar_historial w ahora r :
  historial_herramientas (guardar_registro w ahora r) = historial_herramientas r.
Proof. destruct w; reflexivity. Qed.

Lemma reset_completo_vacio b r :
  herramientas_registradas (fst (reset_completo b r)) = ∅ /\
  historial_herramientas (fst (reset_completo b r)) = [].
Proof. unfold reset_completo. destruct (disco r), b; split; reflexivity. Qed.



End RegistryProps.

Module RegistryEjemplos.
Import Registry RegistryProps Ejemplos.


Example uso_count_reiniciado :
  (snd (registrar_herramienta IoOk "2026-10-17" "get_x_ab12cd34" ∅ registro_usado))
    .(herramientas_registradas) !! "get_x_ab12cd34" ≫= (fun d => d !! "uso_count")
  = Some (VInt 0).
Proof. vm_compute. reflexivity. Qed.

End RegistryEjemplos.

(* ----------------------------------------------------------------- *)
(** ** The full reset *)

Module SistemaProps.
Import Ejecutor EjecutorProps.


End SistemaProps.

Module SistemaEjemplos.
Import Ejecutor EjecutorProps SistemaProps Ejemplos.



End SistemaEjemplos.

(* ----------------------------------------------------------------- *)
(** ** The generator *)

Module GeneradorProps.
Import Generador.

Section Props.

Variable Funcion : Type.
Variable md5_hexdigest : string -> string.
Variable lower : string -> string.
Variable split : string -> list string.
Variable extraer_codigo_python : string -> option string.
Variable crear_funcion_dinamica : string -> string -> option Funcion.
Variable fallo_panel : string -> option string.

Let generar := generar_herramienta Funcion md5_hexdigest lower split
                 extraer_codigo_python crear_funcion_dinamica fallo_panel.
Let nombre := generar_nombre_herramienta md5_hexdigest lower split.

(** What [generar_herramienta] answers for code [codigo] once
    [_crear_funcion_dinamica] has run on it. *)
Let exito (codigo consulta tipo : string) : resultado_generacion Funcion :=
  match crear_funcion_dinamica codigo consulta with
  | Some f => GenOk (nombre consulta) f codigo tipo consulta
  | None => GenError "Error creando función dinámica"
  end.

(** The part of [generar_herramienta] after [_generar_codigo_con_ia]. *)
Let tras_codigo (r : string + option string) (consulta tipo : string) : resultado_generacion Funcion :=
  match r with
  | inl e => GenError ("Error en generación: " ++ e)
  | inr None => GenError "No se pudo generar código para la consulta"
  | inr (Some codigo) =>
      if negb (Py.verdadera codigo)
      then GenError "No se pudo generar código para la consulta"
      else exito codigo consulta tipo
  end.

Lemma generar_con_clave clave p consulta tipo :
  Py.verdadera clave = true -> fallo_panel (panel_generando consulta) = None ->
  generar (Some clave) p consulta tipo =
    tras_codigo (generar_codigo_con_ia extraer_codigo_python fallo_panel p consulta tipo)
      consulta tipo.
Proof.
  intros Hk Hb. unfold generar, generar_herramienta. cbn zeta iota beta.
  rewrite Hk, Hb. cbn [negb].
  destruct (generar_codigo_con_ia _ _ _ _ _) as [e|[codigo|]]; reflexivity.
Qed.

Lemma generar_ok_nombre api p consulta tipo n f c t q :
  generar api p consulta tipo = GenOk n f c t q -> n = nombre consulta.
Proof.
  unfold generar, generar_herramienta.
  destruct (negb _); [discriminate|].
  destruct (fallo_panel _); [discriminate|].
  destruct (generar_codigo_con_ia _ _ _ _ _) as [e|[codigo|]]; [discriminate| |discriminate].
  destruct (negb _); [discriminate|].
  destruct (crear_funcion_dinamica codigo consulta); [|discriminate].
  intros H. inversion H. reflexivity.
Qed.

(** Claim C5: the name of a synthesized tool depends on the request text
    only: two successful [generar_herramienta] calls on the same request
    (whatever the provider did, the category and the key) give the same
    name, [get_<first three lowered words joined by _>_<first 8 hex
    digits of the MD5 of the request>]. *)
Theorem nombre_determinista api1 api2 p1 p2 consulta tipo1 tipo2
    n1 f1 c1 t1 q1 n2 f2 c2 t2 q2 :
  generar api1 p1 consulta tipo1 = GenOk n1 f1 c1 t1 q1 ->
  generar api2 p2 consulta tipo2 = GenOk n2 f2 c2 t2 q2 ->
  n1 = n2 /\
  n1 = "get_" ++ String.concat "_" (firstn 3 (split (lower consulta))) ++ "_" ++
       String.substring 0 8 (md5_hexdigest consulta).
Proof.
  intros H1 H2. apply generar_ok_nombre in H1, H2. subst. split; reflexivity.
Qed.


End Props.

End GeneradorProps.

Module GeneradorEjemplos.
Import Generador GeneradorProps Ejemplos.



Lemma nombre_determinista_witness :
  let g := generar_herramienta string md5_fijo Py.ascii_lower Py.ascii_split
             extraer_todo crear_siempre consola in
  g (Some "clave") (ProvExcepcion "timeout") "How many groups exist" "generic_query" =
    GenOk "get_how_many_groups_ab12cd34" (template_generico "How many groups exist")
      (template_generico "How many groups exist") "generic_query" "How many groups exist" /\
  g (Some "clave") (ProvRespuesta "def get_grupos(): return 3") "How many groups exist"
    "ldap_query" =
    GenOk "get_how_many_groups_ab12cd34" "def get_grupos(): return 3"
      "def get_grupos(): return 3" "ldap_query" "How many groups exist" /\
  "get_how_many_groups_ab12cd34" = "get_how_many_groups_ab12cd34".
Proof.
  intros g.
  assert (H1 : g (Some "clave") (ProvExcepcion "timeout") "How many groups exist" "generic_query" =
    GenOk "get_how_many_groups_ab12cd34" (template_generico "How many groups exist")
      (template_generico "How many groups exist") "generic_query" "How many groups exist")
    by (vm_compute; reflexivity).
  assert (H2 : g (Some "clave") (ProvRespuesta "def get_grupos(): return 3")
                 "How many groups exist" "ldap_query" =
    GenOk "get_how_many_groups_ab12cd34" "def get_grupos(): return 3"
      "def get_grupos(): return 3" "ldap_query" "How many groups exist")
    by (vm_compute; reflexivity).
  split; [exact H1|]. split; [exact H2|].
  exact (proj1 (nombre_determinista string md5_fijo Py.ascii_lower Py.ascii_split
                  extraer_todo crear_siempre consola _ _ _ _ _ _ _ _ _ _ _ _ _ _ _ _ _ H1 H2)).
Defined.

End GeneradorEjemplos.

(* ----------------------------------------------------------------- *)
(** ** The registry write failure on a concrete registry *)

Module RegistryFallo.
Import Registry RegistryProps Ejemplos.

(** [registrar_herramienta] on [registro_vacio] when the file cannot be
    written (for instance a read-only directory): it answers [True]. *)
Example registrar_sin_disco :
  fst (registrar_herramienta (IoFallo "Permission denied") "2026-10-17" "get_x_ab12cd34" ∅
         registro_vacio) = true /\
  disco (snd (registrar_herramienta (IoFallo "Permission denied") "2026-10-17" "get_x_ab12cd34" ∅
                registro_vacio)) = None.
Proof. split; reflexivity. Qed.

End RegistryFallo.

(* ================================================================= *)
(** * Further properties of the agents *)

(* ----------------------------------------------------------------- *)
(** ** Strings *)

Module StringFacts.
Import PyFacts.

Lemma length_append (a b : string) :
  String.length (a ++ b) = String.length a + String.length b.
Proof. induction a as [|c a IH]; [reflexivity|]. rewrite append_cons. simpl. now rewrite IH. Qed.

Lemma get_append_length (a b : string) (c : ascii) :
  String.get (String.length a) (a ++ String c b) = Some c.
Proof. induction a as [|c' a IH]; [reflexivity|]. rewrite append_cons. simpl. exact IH. Qed.

Lemma append_inj_l (a b c : string) : a ++ b = a ++ c -> b = c.
Proof.
  induction a as [|x a IH]; [exact id|]. rewrite !append_cons.
  intros H. injection H as H. exact (IH H).
Qed.

Lemma length_substring0 (m : nat) (s : string) :
  String.length (String.substring 0 m s) = Nat.min m (String.length s).
Proof.
  revert s. induction m as [|m IH]; intros [|c s]; simpl; try reflexivity.
  now rewrite IH.
Qed.

End StringFacts.

(* ----------------------------------------------------------------- *)
(** ** Names of synthesized tools *)

Module NombreProps.
Import Generador PyFacts StringFacts.

(** A name [get_<x>_<h>] whose suffix [h] has 8 characters is none of
    the builtin names. *)
Lemma forma_no_base (x h : string) :
  String.length h = 8 -> "get_" ++ x ++ "_" ++ h ∉ Ejecutor.nombres_base.
Proof.
  intros HL Hin. apply list_elem_of_In in Hin. unfold Ejecutor.nombres_base in Hin.
  change ("_" ++ h) with (String "_" h) in Hin.
  repeat destruct Hin as [E|Hin]; try contradiction; try discriminate E.
  - change "get_current_user_info" with ("get_" ++ "current_user_info") in E.
    apply append_inj_l in E.
    assert (EX : String.length x = 8).
    { apply (f_equal String.length) in E. rewrite length_append in E. simpl in E. lia. }
    apply (f_equal (String.get (String.length x))) in E.
    rewrite get_append_length, EX in E. vm_compute in E. discriminate E.
  - change "get_user_groups" with ("get_" ++ "user_groups") in E.
    apply append_inj_l in E.
    assert (EX : String.length x = 2).
    { apply (f_equal String.length) in E. rewrite length_append in E. simpl in E. lia. }
    apply (f_equal (String.get (String.length x))) in E.
    rewrite get_append_length, EX in E. vm_compute in E. discriminate E.
Qed.

Lemma nombre_no_base_aux (md5_hexdigest lower : string -> string) (split : string -> list string)
    (consulta : string) :
  8 <= String.length (md5_hexdigest consulta) ->
  generar_nombre_herramienta md5_hexdigest lower split consulta ∉ Ejecutor.nombres_base.
Proof.
  intros H8. apply forma_no_base. rewrite length_substring0. lia.
Qed.

End NombreProps.

(* ----------------------------------------------------------------- *)
(** ** The executor: composition of its operations *)

Module EjecutorExtra.
Import Ejecutor EjecutorProps.

Section Extra.

Variables F Args V : Type.
Variable invocar : F -> Args -> string + V.
Implicit Types (s : ejecutor F) (n : string) (f : F).



(** [remover_herramienta_generada] answers [True] exactly for the names
    of [herramientas_generadas]; afterwards the name is not executable:
    [ejecutar_herramienta] answers the not-found dictionary. *)
Theorem remover_luego_no_encontrada s n (kwargs : Args) :
  fst (remover_herramienta_generada n s) = true ->
  is_Some (herramientas_generadas s !! n) /\
  ejecutar_herramienta invocar (snd (remover_herramienta_generada n s)) n kwargs =
    NoEncontrada ("Herramienta '" ++ n ++ "' no encontrada") (claves (delete n (herramientas s))).
Proof.
  unfold remover_herramienta_generada.
  destruct (herramientas_generadas s !! n) as [g|] eqn:Hg; simpl; [|discriminate].
  intros _. split; [eexists; reflexivity|].
  unfold ejecutar_herramienta. simpl. rewrite lookup_delete_eq. reflexivity.
Qed.


(** In a state satisfying the invariant, [listar_herramientas] reports a
    total that is the sum of the builtin and synthesized counts, and its
    two name lists have those lengths. *)
Theorem listar_total_suma s :
  invariante s ->
  total (listar_herramientas s) =
    base_count (listar_herramientas s) + generadas_count (listar_herramientas s) /\
  length (base (listar_herramientas s)) = base_count (listar_herramientas s) /\
  length (generadas (listar_herramientas s)) = generadas_count (listar_herramientas s).
Proof.
  intros [Hh Hd]. unfold listar_herramientas. simpl.
  rewrite !length_claves, Hh, map_size_disj_union by exact Hd.
  split; [lia | split; reflexivity].
Qed.

End Extra.

End EjecutorExtra.

Module EjecutorExtraEjemplos.
Import Ejecutor EjecutorProps EjecutorExtra Ejemplos.



Lemma remover_luego_no_encontrada_witness :
  let s1 := snd (agregar_herramienta_generada "get_x_ab12cd34" "f" estado0) in
  fst (remover_herramienta_generada "get_x_ab12cd34" s1) = true /\
  ejecutar_herramienta llamar (snd (remover_herramienta_generada "get_x_ab12cd34" s1))
    "get_x_ab12cd34" tt =
    NoEncontrada "Herramienta 'get_x_ab12cd34' no encontrada"
      (claves (delete "get_x_ab12cd34" (herramientas s1))).
Proof.
  intros s1.
  assert (Hr : fst (remover_herramienta_generada "get_x_ab12cd34" s1) = true)
    by (vm_compute; reflexivity).
  split; [exact Hr|].
  destruct (remover_luego_no_encontrada string unit string llamar s1 "get_x_ab12cd34" tt Hr)
    as [_ He].
  exact He.
Defined.

Lemma listar_total_suma_witness :
  let s1 := snd (agregar_herramienta_generada "get_x_ab12cd34" "f" estado0) in
  invariante s1 /\
  total (listar_herramientas s1) = base_count (listar_herramientas s1) +
    generadas_count (listar_herramientas s1).
Proof.
  intros s1.
  assert (Hi : invariante s1).
  { apply agregar_inv; [apply inicializar_inv | vm_compute; reflexivity]. }
  split; [exact Hi|].
  destruct (listar_total_suma string s1 Hi) as [Ht _]. exact Ht.
Defined.

End EjecutorExtraEjemplos.

(* ----------------------------------------------------------------- *)
(** ** Synthesized names and the builtin tools *)

Module GeneradorExtra.
Import Generador NombreProps.

(** A tool that [generar_herramienta] synthesizes never carries the name
    of a builtin tool, as long as the MD5 hex digest has at least 8
    characters (it always has 32): its name is [get_<words>_<8 hex
    digits>]. *)
Theorem generada_no_base (Funcion : Type) md5_hexdigest lower split extraer_codigo_python
    crear_funcion_dinamica fallo_panel api p consulta tipo n (f : Funcion) c t q :
  8 <= String.length (md5_hexdigest consulta) ->
  generar_herramienta Funcion md5_hexdigest lower split extraer_codigo_python
    crear_funcion_dinamica fallo_panel api p consulta tipo = GenOk n f c t q ->
  n ∉ Ejecutor.nombres_base.
Proof.
  intros H8 Hg. apply GeneradorProps.generar_ok_nombre in Hg. subst n.
  apply nombre_no_base_aux. exact H8.
Qed.

End GeneradorExtra.

Module GeneradorExtraEjemplos.
Import Generador GeneradorExtra Ejemplos.

Lemma generada_no_base_witness :
  8 <= String.length (md5_fijo "reset the system") /\
  generar_herramienta string md5_fijo Py.ascii_lower Py.ascii_split extraer_todo crear_siempre
    consola     (Some "clave") (ProvRespuesta "def get_r(): return 1") "reset the system" "generic_query" =
    GenOk "get_reset_the_system_ab12cd34" "def get_r(): return 1" "def get_r(): return 1"
      "generic_query" "reset the system" /\
  "get_reset_the_system_ab12cd34" ∉ Ejecutor.nombres_base.
Proof.
  assert (H8 : 8 <= String.length (md5_fijo "reset the system")) by (vm_compute; lia).
  assert (Hg : generar_herramienta string md5_fijo Py.ascii_lower Py.ascii_split extraer_todo
    crear_siempre consola (Some "clave") (ProvRespuesta "def get_r(): return 1") "reset the system"
    "generic_query" =
    GenOk "get_reset_the_system_ab12cd34" "def get_r(): return 1" "def get_r(): return 1"
      "generic_query" "reset the system") by (vm_compute; reflexivity).
  split; [exact H8|]. split; [exact Hg|].
  exact (generada_no_base string md5_fijo Py.ascii_lower Py.ascii_split extraer_todo crear_siempre
           consola           _ _ _ _ _ _ _ _ _ H8 Hg).
Defined.

End GeneradorExtraEjemplos.

(* ----------------------------------------------------------------- *)
(** ** RegistryTools: the entries, the file and the statistics *)

Module RegistryExtra.
Import Registry RegistryProps.

Lemma entrada_valida_completa ahora metadata : entrada_valida (metadata_completa ahora metadata).
Proof.
  unfold entrada_valida, metadata_completa. split.
  - exists 0%Z. split; [lia | apply lookup_insert_eq].
  - left. rewrite lookup_insert_ne by discriminate. apply lookup_insert_eq.
Qed.

Lemma entrada_valida_desregistro ahora datos :
  entrada_valida datos ->
  entrada_valida (<["fecha_desregistro" := VStr ahora]> (<["estado" := VStr "inactiva"]> datos)).
Proof.
  intros [[k [Hk0 Hk]] _]. split.
  - exists k. split; [exact Hk0|]. rewrite !lookup_insert_ne by discriminate. exact Hk.
  - right. rewrite lookup_insert_ne by discriminate. apply lookup_insert_eq.
Qed.

Lemma entrada_valida_uso ahora datos k :
  datos !! "uso_count" = Some (VInt k) -> entrada_valida datos ->
  entrada_valida (<["ultimo_uso" := VStr ahora]> (<["uso_count" := VInt (k + 1)]> datos)).
Proof.
  intros Hk [[k' [Hk0 Hk']] He]. rewrite Hk in Hk'. injection Hk' as <-. split.
  - exists (k + 1)%Z. split; [lia|]. rewrite lookup_insert_ne by discriminate.
    apply lookup_insert_eq.
  - rewrite !lookup_insert_ne by discriminate. exact He.
Qed.

Lemma guardar_bien_formado w ahora r : bien_formado r -> bien_formado (guardar_registro w ahora r).
Proof. intros [Hm Hd]. destruct w; unfold bien_formado; simpl; tauto. Qed.

Lemma vacio_bien_formado : bien_formado registro_vacio.
Proof. split; [apply map_Forall_empty | exact I]. Qed.

(** No operation raises on a well-formed registry, and each one keeps it
    well formed. *)
Lemma paso_bien_formado o r :
  bien_formado r -> exists r', paso o r = Some r' /\ bien_formado r'.
Proof.
  intros Hb. destruct r as [hm hh dd]. pose proof Hb as [Hm Hd]. simpl in Hm, Hd.
  destruct o as [w ahora nombre metadata|w ahora nombre|ahora nombre|borrado|lectura]; simpl.
  - eexists; split; [reflexivity|]. unfold registrar_herramienta. apply guardar_bien_formado.
    split; [|exact Hd]. simpl. apply map_Forall_insert_2; [apply entrada_valida_completa | exact Hm].
  - unfold desregistrar_herramienta. simpl. destruct (hm !! nombre) as [datos|] eqn:E.
    + eexists; split; [reflexivity|]. apply guardar_bien_formado. split; [|exact Hd]. simpl.
      apply map_Forall_insert_2; [|exact Hm]. apply entrada_valida_desregistro.
      exact (Hm _ _ E).
    + eexists; split; [reflexivity | exact Hb].
  - unfold incrementar_uso. simpl. destruct (hm !! nombre) as [datos|] eqn:E.
    + pose proof (Hm _ _ E) as Hv. destruct Hv as [[k [Hk0 Hk]] He]. rewrite Hk.
      eexists; split; [reflexivity|]. split; [|exact Hd]. simpl.
      apply map_Forall_insert_2; [|exact Hm]. apply entrada_valida_uso; [exact Hk|].
      split; [exists k; split; assumption | exact He].
    + eexists; split; [reflexivity | exact Hb].
  - eexists; split; [reflexivity|]. unfold reset_completo. simpl.
    destruct dd as [d|], borrado; (split; [apply map_Forall_empty|]); simpl; tauto.
  - eexists; split; [reflexivity|].
    destruct dd as [d|], lectura; unfold bien_formado; simpl; try tauto;
      split; try apply map_Forall_empty; exact Hd.
Qed.

Lemma ejecutar_ops_bien_formado ops r :
  bien_formado r -> exists r', ejecutar_ops ops r = Some r' /\ bien_formado r'.
Proof.
  revert r. induction ops as [|o ops IH]; intros r Hb; simpl.
  - exists r. split; [reflexivity | exact Hb].
  - destruct (paso_bien_formado o r Hb) as [r1 [E H1]]. rewrite E. apply IH, H1.
Qed.

Lemma ejecutar_ops_app ops1 ops2 r :
  ejecutar_ops (ops1 ++ ops2) r = ejecutar_ops ops1 r ≫= ejecutar_ops ops2.
Proof.
  revert r. induction ops1 as [|o ops1 IH]; intros r; simpl; [reflexivity|].
  destruct (paso o r); [apply IH | reflexivity].
Qed.

Lemma uso_de_valida h : entrada_valida h -> exists k, (0 <= k)%Z /\ uso_de h = Some k.
Proof. intros [[k [Hk0 Hk]] _]. exists k. unfold uso_de. rewrite Hk. split; auto. Qed.

Lemma sumar_uso_desde (l : list metadatos) (a : Z) :
  (0 <= a)%Z -> Forall entrada_valida l ->
  exists z, (0 <= z)%Z /\
    foldl (fun acc h => match acc, uso_de h with
                        | Some a, Some u => Some (a + u)%Z
                        | _, _ => None
                        end) (Some a) l = Some z.
Proof.
  revert a. induction l as [|h l IH]; intros a Ha Hl; simpl.
  - exists a. split; [exact Ha | reflexivity].
  - apply Forall_cons in Hl as [Hh Hl].
    destruct (uso_de_valida h Hh) as [k [Hk0 Hk]]. rewrite Hk.
    apply IH; [lia | exact Hl].
Qed.

Lemma contar_estado_cons e h l :
  contar_estado e (h :: l) = (if estado_es e h then 1 else 0) + contar_estado e l.
Proof. unfold contar_estado. simpl. destruct (estado_es e h); reflexivity. Qed.

Lemma contar_estados (l : list metadatos) :
  Forall entrada_valida l ->
  contar_estado "activa" l + contar_estado "inactiva" l = length l.
Proof.
  induction l as [|h l IH]; intros Hl; [reflexivity|].
  apply Forall_cons in Hl as [[_ He] Hl]. rewrite !contar_estado_cons. simpl.
  destruct He as [E|E].
  - assert (A : estado_es "activa" h = true) by (apply bool_decide_eq_true; exact E).
    assert (I : estado_es "inactiva" h = false)
      by (apply bool_decide_eq_false; rewrite E; discriminate).
    rewrite A, I. specialize (IH Hl). lia.
  - assert (A : estado_es "activa" h = false)
      by (apply bool_decide_eq_false; rewrite E; discriminate).
    assert (I : estado_es "inactiva" h = true) by (apply bool_decide_eq_true; exact E).
    rewrite A, I. specialize (IH Hl). lia.
Qed.

Lemma valores_validos (m : gmap string metadatos) :
  map_Forall (fun _ => entrada_valida) m -> Forall entrada_valida (map snd (map_to_list m)).
Proof.
  intros H. apply Forall_forall. intros h Hin. apply list_elem_of_In in Hin.
  apply in_map_iff in Hin as [[k v] [Hv Hin]]. simpl in Hv. subst v.
  apply (H k). apply elem_of_map_to_list, list_elem_of_In. exact Hin.
Qed.

Lemma usos_repetidos ahora nombre r datos (z : Z) k :
  herramientas_registradas r !! nombre = Some datos ->
  datos !! "uso_count" = Some (VInt z) ->
  exists r' datos',
    ejecutar_ops (repeat (OpIncrementar ahora nombre) k) r = Some r' /\
    herramientas_registradas r' !! nombre = Some datos' /\
    datos' !! "uso_count" = Some (VInt (z + Z.of_nat k)) /\
    datos' !! "estado" = datos !! "estado" /\
    historial_herramientas r' = historial_herramientas r /\
    disco r' = disco r.
Proof.
  revert r datos z. induction k as [|k IH]; intros r datos z Hr Hu; simpl.
  - exists r, datos. rewrite Z.add_0_r. repeat split; assumption.
  - unfold incrementar_uso. rewrite Hr, Hu.
    set (datos1 := <["ultimo_uso" := VStr ahora]> (<["uso_count" := VInt (z + 1)]> datos)).
    destruct (IH {| herramientas_registradas := <[nombre := datos1]> (herramientas_registradas r);
                    historial_herramientas := historial_herramientas r;
                    disco := disco r |} datos1 (z + 1)%Z) as [r' [datos' (E & H1 & H2 & H3 & H4 & H5)]].
    + apply lookup_insert_eq.
    + unfold datos1. rewrite lookup_insert_ne by discriminate. apply lookup_insert_eq.
    + exists r', datos'. split; [exact E|]. split; [exact H1|]. split.
      * rewrite H2. do 2 f_equal. lia.
      * rewrite H3. unfold datos1. rewrite !lookup_insert_ne by discriminate.
        split; [reflexivity|]. split; assumption.
Qed.


(** Registering a tool and then using it [k] times through
    [incrementar_uso] raises nothing and leaves its entry "activa" with
    [uso_count = k]. *)
Theorem registrar_luego_usos w ahora ahora' nombre metadata r k :
  exists r' datos,
    ejecutar_ops (OpRegistrar w ahora nombre metadata :: repeat (OpIncrementar ahora' nombre) k) r
      = Some r' /\
    herramientas_registradas r' !! nombre = Some datos /\
    datos !! "uso_count" = Some (VInt (Z.of_nat k)) /\
    datos !! "estado" = Some (VStr "activa").
Proof.
  simpl. destruct (usos_repetidos ahora' nombre (snd (registrar_herramienta w ahora nombre metadata r))
                     (metadata_completa ahora metadata) 0 k) as [r' [datos (E & H1 & H2 & H3 & _)]].
  - unfold registrar_herramienta. simpl. rewrite guardar_herramientas. apply lookup_insert_eq.
  - apply lookup_insert_eq.
  - exists r', datos. split; [exact E|]. split; [exact H1|]. split; [exact H2|].
    rewrite H3. unfold metadata_completa. rewrite lookup_insert_ne by discriminate.
    apply lookup_insert_eq.
Qed.



(** No sequence of registrations, deregistrations, uses, resets and
    reloads started on a fresh registry makes [incrementar_uso] raise. *)
Theorem registro_nunca_falla ops : ejecutar_ops ops registro_vacio <> None.
Proof.
  destruct (ejecutar_ops_bien_formado ops registro_vacio vacio_bien_formado) as [r [E _]].
  rewrite E. discriminate.
Qed.

(** On a registry reached from a fresh one, [obtener_estadisticas] does not
    raise; its active and inactive counts add up to the total, and the
    total use count is not negative. *)
Theorem estadisticas_alcanzables ops r :
  ejecutar_ops ops registro_vacio = Some r ->
  exists st, obtener_estadisticas r = Some st /\
    activas st + inactivas st = total_herramientas st /\ (0 <= total_uso st)%Z.
Proof.
  intros E. destruct (ejecutar_ops_bien_formado ops registro_vacio vacio_bien_formado)
    as [r' [E' [Hm _]]].
  rewrite E in E'. injection E' as <-.
  pose proof (valores_validos _ Hm) as Hl.
  destruct (sumar_uso_desde _ 0 ltac:(lia) Hl) as [z [Hz0 Hz]].
  unfold obtener_estadisticas, sumar_uso. rewrite Hz.
  eexists; split; [reflexivity|]. simpl. split; [|exact Hz0].
  rewrite contar_estados by exact Hl. rewrite length_map, length_map_to_list. reflexivity.
Qed.

End RegistryExtra.

Module RegistryExtraEjemplos.
Import Registry RegistryExtra Ejemplos.


Lemma estadisticas_alcanzables_witness :
  let ops := [OpRegistrar IoOk "t0" "a" ∅; OpRegistrar (IoFallo "disk full") "t0" "b" ∅;
              OpDesregistrar IoOk "t1" "a"; OpIncrementar "t2" "b"; OpIncrementar "t3" "b"] in
  let r := default registro_vacio (ejecutar_ops ops registro_vacio) in
  ejecutar_ops ops registro_vacio = Some r /\
  obtener_estadisticas r = Some {| total_herramientas := 2; activas := 1; inactivas := 1;
                                   total_uso := 2 |} /\
  exists st, obtener_estadisticas r = Some st /\
    activas st + inactivas st = total_herramientas st /\ (0 <= total_uso st)%Z.
Proof.
  intros ops r.
  assert (E : ejecutar_ops ops registro_vacio = Some r) by (vm_compute; reflexivity).
  split; [exact E|]. split; [vm_compute; reflexivity|].
  exact (estadisticas_alcanzables ops r E).
Defined.

End RegistryExtraEjemplos.

(* ----------------------------------------------------------------- *)
(** ** The coordinator's routing *)

Module CoordinadorExtra.
Import Coordinador.

Lemma identificar_en_destinos (lower : string -> string) (consulta nombre : string) :
  identificar_herramienta lower consulta = Some nombre ->
  nombre ∈ Ejecutor.nombres_base \/ In nombre Orquestador.nombres_ruta_ofensiva.
Proof.
  unfold identificar_herramienta. cbv zeta. intros H.
  repeat match type of H with
  | context [if ?b then _ else _] => destruct b
  end; try discriminate H; injection H as <-;
    first [left; apply list_elem_of_In; simpl; tauto | right; simpl; tauto].
Qed.

(** Every name [_identificar_herramienta] answers is a builtin tool of the
    executor or one of the three names [procesar_consulta] hands to the
    offensive agent: the coordinator never routes a request to a tool
    synthesized earlier. *)
Theorem identificar_destinos (lower : string -> string) (consulta nombre : string) :
  identificar_herramienta lower consulta = Some nombre ->
  nombre ∈ Ejecutor.nombres_base \/ In nombre Orquestador.nombres_ruta_ofensiva.
Proof. apply identificar_en_destinos. Qed.

End CoordinadorExtra.

Module CoordinadorExtraEjemplos.
Import Coordinador CoordinadorExtra.

Lemma identificar_destinos_witness :
  identificar_herramienta Py.ascii_lower "Run a STARTTLS test" = Some "tool_starttls_test" /\
  ("tool_starttls_test" ∈ Ejecutor.nombres_base \/
   In "tool_starttls_test" Orquestador.nombres_ruta_ofensiva).
Proof.
  assert (H : identificar_herramienta Py.ascii_lower "Run a STARTTLS test" = Some "tool_starttls_test")
    by (vm_compute; reflexivity).
  split; [exact H|]. exact (identificar_destinos Py.ascii_lower _ _ H).
Defined.

End CoordinadorExtraEjemplos.

(* ----------------------------------------------------------------- *)
(** ** The offensive agent *)

Module OfensivoExtra.
Import Ofensivo.

Section Extra.

Variables T Kw R : Type.
Variable invocar : T -> Kw -> string + R.
Implicit Types (o : ofensivo T Kw R).

Lemma ejecutar_ofensiva_herramientas (nombre : string) (kwargs : Kw) o :
  herramientas_ofensivas (snd (ejecutar_herramienta_ofensiva invocar nombre kwargs o)) =
    herramientas_ofensivas o.
Proof.
  unfold ejecutar_herramienta_ofensiva.
  destruct (herramientas_ofensivas o !! nombre) as [f|]; [destruct (invocar f kwargs)|]; reflexivity.
Qed.

(** [ejecutar_herramienta_ofensiva] never changes the installed tools,
    and records an operation (tool name, keyword arguments, result) for a
    successful run only: an unknown name or an exception leaves the
    history as it was. *)
Theorem ejecutar_registra_solo_exitos (nombre : string) (kwargs : Kw) o :
  herramientas_ofensivas (snd (ejecutar_herramienta_ofensiva invocar nombre kwargs o)) =
    herramientas_ofensivas o /\
  historial_operaciones (snd (ejecutar_herramienta_ofensiva invocar nombre kwargs o)) =
    (historial_operaciones o ++
      match fst (ejecutar_herramienta_ofensiva invocar nombre kwargs o) with
      | OfExitosa h v p => [mkOperacion h p v]
      | _ => []
      end)%list.
Proof.
  unfold ejecutar_herramienta_ofensiva.
  destruct (herramientas_ofensivas o !! nombre) as [f|];
    [destruct (invocar f kwargs)|]; simpl; rewrite ?app_nil_r; split; reflexivity.
Qed.

(** [obtener_historial_operaciones(limite)] with a positive [limite]
    answers the last [min(limite, len)] operations of the history. *)
Theorem historial_limite_positivo (limite : Z) o :
  (0 < limite)%Z ->
  exists previas,
    historial_operaciones o = (previas ++ obtener_historial_operaciones limite o)%list /\
    length (obtener_historial_operaciones limite o) =
      Nat.min (Z.to_nat limite) (length (historial_operaciones o)).
Proof.
  intros Hl. unfold obtener_historial_operaciones.
  destruct (historial_operaciones o) as [|x l].
  - exists []. split; [reflexivity|]. simpl. lia.
  - unfold Py.rebanada_desde.
    replace (- limite <? 0)%Z with true by (symmetry; apply Z.ltb_lt; lia).
    set (k := Z.to_nat (Z.max 0 (Z.of_nat (length (x :: l)) + - limite))).
    exists (take k (x :: l)). split; [symmetry; apply take_drop|].
    rewrite length_drop. unfold k. lia.
Qed.

(** With [limite <= 0] the slice [[-limite:]] counts from the start:
    [obtener_historial_operaciones(0)] answers the whole history, and a
    negative [limite] drops the first [-limite] operations. *)
Theorem historial_limite_no_positivo (limite : Z) o :
  (limite <= 0)%Z ->
  obtener_historial_operaciones limite o = drop (Z.to_nat (- limite)) (historial_operaciones o).
Proof.
  intros Hl. unfold obtener_historial_operaciones.
  destruct (historial_operaciones o) as [|x l]; [destruct (Z.to_nat (- limite)); reflexivity|].
  unfold Py.rebanada_desde.
  replace (- limite <? 0)%Z with false by (symmetry; apply Z.ltb_ge; lia).
  destruct (Nat.le_gt_cases (Z.to_nat (- limite)) (length (x :: l))) as [Hc|Hc].
  - f_equal. lia.
  - rewrite !drop_ge by lia. reflexivity.
Qed.

End Extra.

End OfensivoExtra.

Module OfensivoExtraEjemplos.
Import Ofensivo OfensivoExtra.

Lemma historial_limite_positivo_witness :
  let o : ofensivo string unit string :=
    mkOfensivo ∅ [mkOperacion "a" tt "r1"; mkOperacion "b" tt "r2"; mkOperacion "c" tt "r3"] in
  (0 < 2)%Z /\
  obtener_historial_operaciones 2 o = [mkOperacion "b" tt "r2"; mkOperacion "c" tt "r3"] /\
  exists previas,
    historial_operaciones o = (previas ++ obtener_historial_operaciones 2 o)%list /\
    length (obtener_historial_operaciones 2 o) =
      Nat.min (Z.to_nat 2) (length (historial_operaciones o)).
Proof.
  intros o. assert (H : (0 < 2)%Z) by lia.
  split; [exact H|]. split; [vm_compute; reflexivity|].
  exact (historial_limite_positivo string unit string 2 o H).
Defined.

Lemma historial_limite_no_positivo_witness :
  let o : ofensivo string unit string :=
    mkOfensivo ∅ [mkOperacion "a" tt "r1"; mkOperacion "b" tt "r2"; mkOperacion "c" tt "r3"] in
  (0 <= 0)%Z /\
  obtener_historial_operaciones 0 o = historial_operaciones o.
Proof.
  intros o. assert (H : (0 <= 0)%Z) by lia.
  split; [exact H|].
  rewrite (historial_limite_no_positivo string unit string 0 o H). reflexivity.
Defined.

End OfensivoExtraEjemplos.

(* ================================================================= *)

Module OrquestadorExtra.
Import Orquestador.

Section Extra.

Variables F V T R : Type.
Variable invocar : F -> unit -> string + V.
Variable invocar_ofensiva : T -> unit -> string + R.
Variables lower md5_hexdigest : string -> string.
Variable split : string -> list string.
Variable extraer_codigo_python : string -> option string.
Variable crear_funcion_dinamica : string -> string -> option F.
Variable repr : resultado F V R -> string.
Variable importar : string -> F.
Variable importar_ofensiva : string -> T.

Local Abbreviation procesar := (procesar_consulta invocar invocar_ofensiva lower md5_hexdigest split
                              extraer_codigo_python crear_funcion_dinamica repr).
Implicit Types (m : mundo F T R).

Local Abbreviation inv := (inv_mundo importar importar_ofensiva).

Lemma base_inicial n :
  n ∈ Ejecutor.nombres_base ->
  Ejecutor.herramientas_base (Ejecutor.inicializar importar) !! n = Some (importar n).
Proof.
  intros Hn. unfold Ejecutor.inicializar. cbn [Ejecutor.herramientas_base]. apply elem_of_list_to_map_1.
  - change ((map (fun n => (n, importar n)) Ejecutor.nombres_base).*1) with Ejecutor.nombres_base.
    apply (bool_decide_unpack _). vm_compute. exact I.
  - apply list_elem_of_In, in_map_iff. exists n. split; [reflexivity|].
    apply list_elem_of_In, Hn.
Qed.

Lemma inv_base m n :
  inv m -> n ∈ Ejecutor.nombres_base ->
  Ejecutor.herramientas (Sistema.ejecutor (sistema m)) !! n = Some (importar n) /\
  Ejecutor.herramientas_base (Sistema.ejecutor (sistema m)) !! n = Some (importar n) /\
  Registry.herramientas_registradas (Sistema.registry (sistema m)) !! n = None.
Proof.
  intros ([Hh Hd] & Hb & Hr & _ & _) Hn.
  assert (B : Ejecutor.herramientas_base (Sistema.ejecutor (sistema m)) !! n = Some (importar n))
    by (rewrite Hb; apply base_inicial, Hn).
  assert (G : Ejecutor.herramientas_generadas (Sistema.ejecutor (sistema m)) !! n = None)
    by (eapply map_disjoint_Some_r; eassumption).
  split; [rewrite Hh, lookup_union_r by exact G; exact B|]. split; [exact B|].
  destruct (Registry.herramientas_registradas _ !! n) eqn:E; [|reflexivity].
  exfalso. assert (Hs : is_Some (Ejecutor.herramientas_generadas (Sistema.ejecutor (sistema m)) !! n))
    by (apply Hr; rewrite E; eexists; reflexivity).
  rewrite G in Hs. destruct Hs as [x Hx]. discriminate.
Qed.

Lemma inv_igual (m m' : mundo F T R) :
  Sistema.ejecutor (sistema m') = Sistema.ejecutor (sistema m) ->
  Sistema.registry (sistema m') = Sistema.registry (sistema m) ->
  Sistema.herramientas_disponibles (sistema m') = Sistema.herramientas_disponibles (sistema m) ->
  Ofensivo.herramientas_ofensivas (ofensivo m') = Ofensivo.herramientas_ofensivas (ofensivo m) ->
  inv m -> inv m'.
Proof. intros E1 E2 E3 E4. unfold inv_mundo. rewrite E1, E2, E3, E4. tauto. Qed.

Lemma inv_inicial : inv (mundo_inicial (R:=R) importar importar_ofensiva).
Proof.
  split; [apply EjecutorProps.inicializar_inv|]. split; [reflexivity|].
  split; [|split; [|reflexivity]].
  - intros n. simpl. rewrite !lookup_empty. split; intros [x Hx]; discriminate.
  - intros n [x Hx]. simpl in Hx. rewrite lookup_empty in Hx. discriminate.
Qed.

Lemma inv_incorporar w ahora n f md (m : mundo F T R) :
  inv m -> n ∉ Ejecutor.nombres_base ->
  inv (con_sistema (Sistema.incorporar_herramienta w ahora n f md (sistema m)) m).
Proof.
  intros (Hi & Hb & Hr & Hd & Ho) Hn.
  assert (Hbn : Ejecutor.herramientas_base (Sistema.ejecutor (sistema m)) !! n = None)
    by (rewrite Hb; apply EjecutorProps.inicializar_base, Hn).
  unfold inv_mundo. cbn [con_sistema sistema ofensivo Sistema.incorporar_herramienta
    Sistema.ejecutor Sistema.registry Sistema.herramientas_disponibles].
  split; [apply EjecutorProps.agregar_inv; assumption|]. split; [exact Hb|].
  split; [|split; [|exact Ho]].
  - intros k. unfold Registry.registrar_herramienta. cbn [snd].
    rewrite RegistryProps.guardar_herramientas. cbn [Registry.herramientas_registradas].
    cbn [Ejecutor.agregar_herramienta_generada snd Ejecutor.herramientas_generadas].
    destruct (decide (k = n)) as [->|Hk].
    + rewrite !lookup_insert_eq. split; intros _; eexists; reflexivity.
    + rewrite !lookup_insert_ne by congruence. apply Hr.
  - intros k Hk.
    cbn [Ejecutor.agregar_herramienta_generada snd Ejecutor.herramientas_generadas] in Hk.
    assert (Hk' : k = n \/ k ∈ Sistema.herramientas_disponibles (sistema m)).
    { destruct (decide (k = n)) as [->|Hkn]; [left; reflexivity|right].
      apply Hd. rewrite lookup_insert_ne in Hk by congruence. exact Hk. }
    case_decide as Hin; destruct Hk' as [->|Hk']; try assumption;
      apply elem_of_app; [right; apply list_elem_of_singleton; reflexivity | left; assumption].
Qed.

Lemma inv_reset borrado (m : mundo F T R) :
  inv m -> inv (con_sistema (snd (Sistema.reset_sistema borrado (sistema m))) m).
Proof.
  intros (Hi & Hb & Hr & Hd & Ho).
  assert (He : Sistema.ejecutor (snd (Sistema.reset_sistema borrado (sistema m))) =
               snd (Ejecutor.reset_herramientas_generadas (Sistema.ejecutor (sistema m)))).
  { unfold Sistema.reset_sistema. destruct (Ejecutor.reset_herramientas_generadas _).
    destruct (Registry.reset_completo _ _) as [r' [x|]]; reflexivity. }
  assert (Hreg : Sistema.registry (snd (Sistema.reset_sistema borrado (sistema m))) =
                 fst (Registry.reset_completo borrado (Sistema.registry (sistema m)))).
  { unfold Sistema.reset_sistema. destruct (Ejecutor.reset_herramientas_generadas _).
    destruct (Registry.reset_completo _ _) as [r' [x|]]; reflexivity. }
  unfold inv_mundo. cbn [con_sistema sistema ofensivo]. rewrite He, Hreg.
  split; [apply EjecutorProps.reset_inv, Hi|].
  split; [unfold Ejecutor.reset_herramientas_generadas; cbn [snd];
          rewrite EjecutorProps.remover_todas_base; exact Hb|].
  split; [|split; [|exact Ho]].
  - intros k. rewrite EjecutorProps.reset_generadas_vacias,
      (proj1 (RegistryProps.reset_completo_vacio _ _)), !lookup_empty.
    split; intros [x Hx]; discriminate.
  - intros k. rewrite EjecutorProps.reset_generadas_vacias, lookup_empty.
    intros [x Hx]; discriminate.
Qed.


Lemma analizar_ejecutar c h c' :
  Coordinador.analizar_consulta lower c = Coordinador.Ejecutar h c' ->
  h = Coordinador.identificar_herramienta lower c.
Proof.
  unfold Coordinador.analizar_consulta.
  destruct (Coordinador.puede_responder_directamente lower c); intros H; inversion H; reflexivity.
Qed.

Lemma analizar_generar c c' tipo :
  Coordinador.analizar_consulta lower c = Coordinador.Generar c' tipo -> c' = c.
Proof.
  unfold Coordinador.analizar_consulta.
  destruct (Coordinador.puede_responder_directamente lower c); intros H; inversion H; reflexivity.
Qed.

Lemma existente_base ahora n d m :
  inv m -> n ∈ Ejecutor.nombres_base ->
  ejecutar_herramienta_existente invocar ahora (Some n) d m =
    Some (HerramientaExistente (Some n)
            (Ejecutor.ejecutar_herramienta invocar (Sistema.ejecutor (sistema m)) n tt) d, m).
Proof.
  intros Hi Hn. destruct (inv_base m n Hi Hn) as (_ & _ & Hr).
  unfold ejecutar_herramienta_existente. cbv zeta.
  destruct (Ejecutor.error _); [reflexivity|].
  unfold Registry.incrementar_uso. rewrite Hr.
  destruct m as [[] o]; reflexivity.
Qed.

Lemma ejecutar_base m n :
  inv m -> n ∈ Ejecutor.nombres_base ->
  Ejecutor.ejecutar_herramienta invocar (Sistema.ejecutor (sistema m)) n tt =
  match invocar (importar n) tt with
  | inl e => Ejecutor.Fallida ("Error ejecutando " ++ n ++ ": " ++ e) n
  | inr v => Ejecutor.Exitosa n v "base"
  end.
Proof.
  intros Hi Hn. destruct (inv_base m n Hi Hn) as (H1 & H2 & _).
  unfold Ejecutor.ejecutar_herramienta. rewrite H1.
  destruct (invocar (importar n) tt); [reflexivity|].
  rewrite decide_True by (rewrite H2; eexists; reflexivity). reflexivity.
Qed.

Lemma cierre c res m m2 pre m' :
  m' = con_sistema (con_estado "listo" (Sistema.consultas_procesadas (sistema m2))
                      (registrar_consulta c (repr res) (sistema m2))) m2 ->
  inv m2 -> res <> ErrorProcesando c ->
  Sistema.consultas_procesadas (sistema m2) = S (Sistema.consultas_procesadas (sistema m)) ->
  Sistema.historial_consultas (sistema m2) = (Sistema.historial_consultas (sistema m) ++ pre)%list ->
  inv m' /\ res <> ErrorProcesando c /\ Sistema.estado (sistema m') = "listo" /\
  Sistema.consultas_procesadas (sistema m') = S (Sistema.consultas_procesadas (sistema m)) /\
  (exists pre', Sistema.historial_consultas (sistema m') =
     (Sistema.historial_consultas (sistema m) ++ pre' ++ [(c, repr res)])%list).
Proof.
  intros -> Hi Hres Hc Hh. split; [apply (inv_igual m2); try reflexivity; exact Hi|].
  split; [exact Hres|]. split; [reflexivity|]. split; [exact Hc|].
  exists pre. simpl. rewrite Hh, app_assoc. reflexivity.
Qed.

Hypothesis md5_largo : forall c, 8 <= String.length (md5_hexdigest c).

Lemma procesar_inv env c m res m' :
  inv m -> procesar env c m = (res, m') ->
  inv m' /\ res <> ErrorProcesando c /\ Sistema.estado (sistema m') = "listo" /\
  Sistema.consultas_procesadas (sistema m') = S (Sistema.consultas_procesadas (sistema m)) /\
  (exists pre, Sistema.historial_consultas (sistema m') =
     (Sistema.historial_consultas (sistema m) ++ pre ++ [(c, repr res)])%list).
Proof.
  intros Hi E. unfold procesar_consulta in E. cbv zeta in E.
  set (m1 := con_sistema (con_estado "procesando" (S (Sistema.consultas_procesadas (sistema m)))
                            (sistema m)) m) in E.
  assert (Hi1 : inv m1) by (apply (inv_igual m); try reflexivity; exact Hi).
  destruct (Coordinador.analizar_consulta lower c) as [h c'|c' tipo] eqn:Ed.
  - apply analizar_ejecutar in Ed. destruct h as [n|].
    + destruct (existsb (String.eqb n) nombres_ruta_ofensiva) eqn:Eo.
      * unfold ejecutar_herramienta_ofensiva in E.
        destruct (Ofensivo.ejecutar_herramienta_ofensiva invocar_ofensiva n tt (ofensivo m1))
          as [r o'] eqn:Eof.
        cbn beta iota in E. injection E as <- <-.
        apply (cierre c _ m (mkMundo (registrar_consulta ("herramienta_ofensiva:" ++ n)
                                  (repr (Ofensiva r)) (sistema m1)) o')
                 [("herramienta_ofensiva:" ++ n, repr (Ofensiva r))]);
          [reflexivity | | discriminate | reflexivity | reflexivity].
        apply (inv_igual m1); try reflexivity; [|exact Hi1].
        pose proof (OfensivoExtra.ejecutar_ofensiva_herramientas T unit R invocar_ofensiva n tt
                      (ofensivo m1)) as Ho.
        rewrite Eof in Ho. exact Ho.
      * assert (Hn : n ∈ Ejecutor.nombres_base).
        { destruct (CoordinadorExtra.identificar_en_destinos lower c n (eq_sym Ed)) as [Hn|Hn];
            [exact Hn|].
          assert (Ht : existsb (String.eqb n) nombres_ruta_ofensiva = true).
          { apply existsb_exists. exists n. split; [exact Hn | apply String.eqb_refl]. }
          congruence. }
        rewrite (existente_base (ahora env) n _ m1 Hi1 Hn) in E.
        cbn beta iota in E. injection E as <- <-.
        apply (cierre c _ m m1 []); [reflexivity | exact Hi1 | discriminate | reflexivity |].
        rewrite app_nil_r. reflexivity.
    + unfold ejecutar_herramienta_existente in E. cbn beta iota zeta in E. injection E as <- <-.
      apply (cierre c _ m m1 []); [reflexivity | exact Hi1 | discriminate | reflexivity |].
      rewrite app_nil_r. reflexivity.
  - unfold generar_y_ejecutar_herramienta in E.
    destruct (Generador.generar_herramienta F md5_hexdigest lower split extraer_codigo_python
                crear_funcion_dinamica consola_sin_fallos (api_key env) (proveedor env) c' tipo)
      as [msg|n f code t q] eqn:Eg.
    + cbn beta iota in E. injection E as <- <-.
      apply (cierre c _ m m1 []); [reflexivity | exact Hi1 | discriminate | reflexivity |].
      rewrite app_nil_r. reflexivity.
    + cbn beta iota zeta in E. injection E as <- <-.
      set (md := <["tipo" := Registry.VStr tipo]> (<["consulta_original" := Registry.VStr c']>
                   (<["codigo_generado" := Registry.VStr code]>
                     {["fecha_generacion" := Registry.VStr "ahora"]}))).
      apply (cierre c _ m (con_sistema (Sistema.incorporar_herramienta (escritura env) (ahora env)
                                         n f md (sistema m1)) m1) []);
        [reflexivity | | discriminate | reflexivity | rewrite app_nil_r; reflexivity].
      apply inv_incorporar; [exact Hi1|].
      apply GeneradorProps.generar_ok_nombre in Eg. subst n.
      apply NombreProps.nombre_no_base_aux, md5_largo.
Qed.

Lemma paso_mundo_inv o m :
  inv m -> inv (paso invocar invocar_ofensiva lower md5_hexdigest split extraer_codigo_python
                  crear_funcion_dinamica repr o m).
Proof.
  intros Hi. destruct o as [env c|borrado]; simpl.
  - destruct (procesar env c m) as [res m'] eqn:E. simpl.
    exact (proj1 (procesar_inv env c m res m' Hi E)).
  - apply inv_reset, Hi.
Qed.

Lemma ejecutar_ops_inv ops m :
  inv m -> inv (ejecutar_ops invocar invocar_ofensiva lower md5_hexdigest split
                  extraer_codigo_python crear_funcion_dinamica repr ops m).
Proof.
  unfold ejecutar_ops. revert m. induction ops as [|o ops IH]; intros m Hi; simpl; [exact Hi|].
  apply IH, paso_mundo_inv, Hi.
Qed.

Local Abbreviation alcanzado ops :=
  (ejecutar_ops invocar invocar_ofensiva lower md5_hexdigest split extraer_codigo_python
     crear_funcion_dinamica repr ops (mundo_inicial (R:=R) importar importar_ofensiva)).

Lemma alcanzado_inv ops : inv (alcanzado ops).
Proof. apply ejecutar_ops_inv, inv_inicial. Qed.




End Extra.
End OrquestadorExtra.

(* ================================================================= *)

Module OrquestadorExtraEjemplos.
Import Orquestador Ejemplos.

Definition repr_ej (_ : resultado string string string) : string := "r".
Definition env_ej : entorno :=
  mkEntorno (Some "clave") (Generador.ProvRespuesta "def get_r(): return 1") Registry.IoOk "t".
Definition procesar_ej :=
  procesar_consulta (V:=string) llamar llamar Py.ascii_lower md5_fijo Py.ascii_split extraer_todo
    crear_siempre repr_ej.
Definition alcanzado_ej (ops : list Orquestador.operacion) :=
  ejecutar_ops (V:=string) llamar llamar Py.ascii_lower md5_fijo Py.ascii_split extraer_todo
    crear_siempre repr_ej ops (mundo_inicial (R:=string) (fun n => n) (fun n => n)).
Definition ops_ej : list Orquestador.operacion := [Orquestador.OpProcesar env_ej "How many groups exist"].
Lemma md5_fijo_largo : forall c, 8 <= String.length (md5_fijo c).
Proof. intros c. apply Nat.leb_le. reflexivity. Qed.




End OrquestadorExtraEjemplos.
